(** * frameioclient: the request/response pipeline and the asset downloader

    A shallow embedding of [frameioclient/client.py] ([PaginatedResponse],
    [FrameioClient.__init__], [FrameioClient._api_call] and some of the
    resource methods) and of [frameioclient/download.py]
    ([FrameioDownloader.download]), together with the parts of [requests],
    [urllib3] and the Python runtime that these functions call ([int],
    [iter], [posixpath.join], [Response.ok], [Response.raise_for_status],
    [Session.request], [Session.send], [Session.resolve_redirects],
    [Session.get_adapter], [HTTPAdapter.send], [HTTPConnectionPool.urlopen],
    [Retry.is_retry], [Retry.increment], [Retry.sleep]).

    Python exceptions are values of [exn]; a computation that may raise
    returns a [result].  The remote server and the local file system are
    passed explicitly.  What the libraries do with the text of a request
    or of a header and with the clock (the preparation and the encoding of
    a request, the rebuilding of a request after a redirect, the reading
    of a date, the wait) is taken as given, in a [Library].  The libraries are [requests] 2.x with [urllib3] 1.x,
    where [method_whitelist] names the methods of a [Retry]. *)

From stdpp Require Import gmap strings list.
From Stdlib Require Import ZArith Ascii String Lia.
From Equations Require Import Equations.

Local Open Scope string_scope.
Local Open Scope Z_scope.

(** ** Strings as Python sees them

    A string is a sequence of code points below 256. *)

Module Str.

Definition code (c : ascii) : nat := nat_of_ascii c.

(** The letters that change case within the code points below 256: a to z
    and A to Z, and the accented letters 224..254 and 192..222, the signs
    247 and 215 apart. *)
Definition is_lower (c : ascii) : bool :=
  (97 <=? code c)%nat && (code c <=? 122)%nat
  || (224 <=? code c)%nat && (code c <=? 254)%nat && negb (code c =? 247)%nat.
Definition is_upper (c : ascii) : bool :=
  (65 <=? code c)%nat && (code c <=? 90)%nat
  || (192 <=? code c)%nat && (code c <=? 222)%nat && negb (code c =? 215)%nat.
Definition is_digit (c : ascii) : bool := (48 <=? code c)%nat && (code c <=? 57)%nat.

(** The white space that [int] drops around a number, among the code points
    below 256: the ASCII white space 9..13 and 32, and 133 and 160.  The
    separators 28..31 are not dropped. *)
Definition is_space (c : ascii) : bool :=
  (9 <=? code c)%nat && (code c <=? 13)%nat
  || (code c =? 32)%nat || (code c =? 133)%nat || (code c =? 160)%nat.

(** The white space of a regular expression, [\s] on a [str]: the above and
    the separators 28..31. *)
Definition is_space_re (c : ascii) : bool :=
  is_space c || (28 <=? code c)%nat && (code c <=? 31)%nat.

Definition upper_char (c : ascii) : ascii :=
  if is_lower c then ascii_of_nat (code c - 32) else c.
Definition lower_char (c : ascii) : ascii :=
  if is_upper c then ascii_of_nat (code c + 32) else c.

Fixpoint map (f : ascii -> ascii) (s : string) : string :=
  match s with
  | EmptyString => EmptyString
  | String c s' => String (f c) (map f s')
  end.

(** [s.lower()] and [s.upper()].  The upper case of 181, 223 and 255 is no
    single code point below 256: [upper] keeps them, and is [s.upper()] on
    the strings without them. *)
Definition upper : string -> string := map upper_char.
Definition lower : string -> string := map lower_char.

(** [s.startswith(p)]. *)
Fixpoint startswith (p s : string) : bool :=
  match p, s with
  | EmptyString, _ => true
  | String a p', String b s' => if Ascii.eqb a b then startswith p' s' else false
  | String _ _, EmptyString => false
  end.

(** [sub in s]: [sub] starts at some position of [s]. *)
Fixpoint contains (sub s : string) : bool :=
  startswith sub s ||
  match s with
  | EmptyString => false
  | String _ s' => contains sub s'
  end.

(** [s.endswith(c)] for a one-character suffix. *)
Fixpoint endswith_char (c : ascii) (s : string) : bool :=
  match s with
  | EmptyString => false
  | String a EmptyString => Ascii.eqb a c
  | String _ s' => endswith_char c s'
  end.

Fixpoint lstrip (s : string) : string :=
  match s with
  | EmptyString => EmptyString
  | String c s' => if is_space c then lstrip s' else s
  end.

Fixpoint rev_append (s acc : string) : string :=
  match s with
  | EmptyString => acc
  | String c s' => rev_append s' (String c acc)
  end.

Definition rev (s : string) : string := rev_append s EmptyString.

Definition strip (s : string) : string := rev (lstrip (rev (lstrip s))).

End Str.

(** ** Python values and exceptions *)

#[local] Set Warnings "-register-all".

(** A decoded JSON document, the value of [r.json()].  An object keeps its
    members in document order, as a Python [dict] does. *)
Inductive json : Type :=
| JNull
| JBool (b : bool)
| JInt (z : Z)
| JFloat (literal : string)
| JStr (s : string)
| JArr (items : list json)
| JObj (members : list (string * json)).

(** What [int] is applied to in this program: [None] (an absent header read
    with [.get]), a Python [int] (a constructor default or an explicit
    argument) or a [str] (a header value). *)
Inductive pyobj : Type :=
| PyNone
| PyInt (z : Z)
| PyStr (s : string).

(** A [requests.Response], as far as the program reads it.  [headers] is a
    case-insensitive dictionary: it is keyed by the lower-cased header name.
    [decoded] is what the JSON decoder makes of the body, [None] when the
    body is not a JSON document. *)
Record Response : Type := mkResponse {
  status_code : Z;
  headers : gmap string string;
  content : string;
  decoded : option json
}.

Inductive exn : Type :=
| TypeError
| ValueError
| KeyError (key : string)
| OverflowError
| UnicodeDecodeError
| UnicodeEncodeError
| IOError (path : string)
| ConnectionError
| MissingSchema
| InvalidSchema
| InvalidURL
| InvalidHeader
| TooManyRedirects
| MaxRetryError
| RetryError
| HTTPError (response : Response)
| PresentationException.

Inductive result (A : Type) : Type :=
| Return (a : A)
| Raise (e : exn).
Arguments Return {A} a.
Arguments Raise {A} e.

Definition bind {A B : Type} (m : result A) (k : A -> result B) : result B :=
  match m with
  | Return a => k a
  | Raise e => Raise e
  end.

#[global] Instance result_ret : MRet result := @Return.
#[global] Instance result_bind : MBind result := fun A B k m => bind m k.

Definition raises {A : Type} (m : result A) : Prop :=
  match m with
  | Return _ => False
  | Raise _ => True
  end.

(** ** The builtins [int], [bool] and [iter] *)

Definition digit_value (c : ascii) : Z := Z.of_nat (Str.code c - 48).

(** The digits of a decimal literal: at least one digit, single underscores
    only between two digits.  [after_digit] tells whether the character just
    read was a digit. *)
Fixpoint parse_digits (acc : Z) (after_digit : bool) (s : string) : option Z :=
  match s with
  | EmptyString => if after_digit then Some acc else None
  | String c s' =>
      if Str.is_digit c then parse_digits (10 * acc + digit_value c) true s'
      else if Ascii.eqb c "_" then
        if after_digit then parse_digits acc false s' else None
      else None
  end.

(** [int(s)] for a [str], base 10: surrounding white space is dropped, then
    an optional sign, then the digits.  The number of digits is not bounded
    (Python 3.11 and later refuse more than 4300 of them). *)
Definition int_of_str (s : string) : option Z :=
  match Str.strip s with
  | String "-" d => Z.opp <$> parse_digits 0 false d
  | String "+" d => parse_digits 0 false d
  | d => parse_digits 0 false d
  end.

Definition py_int (o : pyobj) : result Z :=
  match o with
  | PyNone => Raise TypeError
  | PyInt z => Return z
  | PyStr s =>
      match int_of_str s with
      | Some z => Return z
      | None => Raise ValueError
      end
  end.

(** Truth value of the object in an [if]. *)
Definition py_bool (o : pyobj) : bool :=
  match o with
  | PyNone => false
  | PyInt z => negb (z =? 0)
  | PyStr s => negb (String.eqb s "")
  end.

Fixpoint chars (s : string) : list json :=
  match s with
  | EmptyString => []
  | String c s' => JStr (String c EmptyString) :: chars s'
  end.

(** [list(iter(v))]: the items of a list, the keys of a dict, the characters
    of a string; the other values are not iterable. *)
Definition py_iter (v : json) : result (list json) :=
  match v with
  | JArr items => Return items
  | JObj members => Return (JStr <$> members.*1)
  | JStr s => Return (chars s)
  | _ => Raise TypeError
  end.

(** ** [requests.Response] *)

(** [r.raise_for_status()]: raises [HTTPError], which carries the response
    (its status code and body), for a status in 400..599. *)
Definition raise_for_status (r : Response) : result unit :=
  if (400 <=? status_code r) && (status_code r <? 600)
  then Raise (HTTPError r)
  else Return tt.

(** [r.ok]: [raise_for_status] does not raise. *)
Definition ok (r : Response) : bool :=
  match raise_for_status r with
  | Return _ => true
  | Raise _ => false
  end.

(** [r.json()]. *)
Definition Response_json (r : Response) : result json :=
  match decoded r with
  | Some v => Return v
  | None => Raise ValueError
  end.

(** [r.headers.get(k)]. *)
Definition headers_get (r : Response) (k : string) : pyobj :=
  match headers r !! Str.lower k with
  | Some v => PyStr v
  | None => PyNone
  end.

(** [r.headers[k]]. *)
Definition headers_getitem (r : Response) (k : string) : result pyobj :=
  match headers r !! Str.lower k with
  | Some v => Return (PyStr v)
  | None => Raise (KeyError k)
  end.

(** ** [PaginatedResponse] *)

Record PaginatedResponse : Type := mkPaginatedResponse {
  results : json;
  page : Z;
  page_size : Z;
  total : Z;
  total_pages : Z
}.

(** [PaginatedResponse.__init__]: the four numbers go through [int], in the
    order of the assignments. *)
Definition PaginatedResponse_init
    (results : json) (page page_size total total_pages : pyobj)
    : result PaginatedResponse :=
  page' ← py_int page;
  page_size' ← py_int page_size;
  total' ← py_int total;
  total_pages' ← py_int total_pages;
  mret (mkPaginatedResponse results page' page_size' total' total_pages').

(** The defaults of the constructor: [results=[]] and zeros. *)
Definition PaginatedResponse_default : result PaginatedResponse :=
  PaginatedResponse_init (JArr []) (PyInt 0) (PyInt 0) (PyInt 0) (PyInt 0).

(** [PaginatedResponse.__iter__], read off as the list it yields. *)
Definition PaginatedResponse_iter (self : PaginatedResponse) : result (list json) :=
  py_iter (results self).

(** [len(self.results)], for the results that have a length. *)
Definition results_len (self : PaginatedResponse) : option Z :=
  match results self with
  | JArr items => Some (Z.of_nat (List.length items))
  | JObj members => Some (Z.of_nat (List.length members))
  | JStr s => Some (Z.of_nat (String.length s))
  | _ => None
  end.


(** ** What [_api_call] returns *)

(** A decoded body or a [PaginatedResponse].  Python's [None] is [JNull]:
    it is what [r.json()] gives for the body [null]. *)
Inductive api_value : Type :=
| Plain (body : json)
| Paginated (p : PaginatedResponse).

(** Lines 68 to 84 of [_api_call]: what is made of the response [r] that
    the session hands back for [endpoint]. *)
Definition interpret (endpoint : string) (r : Response) : result api_value :=
  if ok r then
    if py_bool (headers_get r "page-number") then
      n ← py_int (headers_get r "total-pages");
      if 1 <? n then
        results ← Response_json r;
        page ← headers_getitem r "page-number";
        page_size ← headers_getitem r "per-page";
        total_pages ← headers_getitem r "total-pages";
        total ← headers_getitem r "total";
        p ← PaginatedResponse_init results page page_size total total_pages;
        mret (Paginated p)
      else
        body ← Response_json r; mret (Plain body)
    else
      body ← Response_json r; mret (Plain body)
  else if (status_code r =? 422) && Str.contains "presentation" endpoint then
    Raise PresentationException
  else
    _ ← raise_for_status r; mret (Plain JNull).

(** ** The wire *)

(** A request: before its preparation, what the caller gave; after it, what
    goes to the server.  [request_headers] lists the headers the caller set
    (the session adds its own). *)
Record Request : Type := mkRequest {
  method : string;
  url : string;
  request_headers : list (string * string);
  payload : json
}.

(** The remote side: the response to the latest of the requests received so
    far (oldest first).  Each attempt of a call is one more request.  The
    server always answers: failures of the connection are left out. *)
Definition Server : Type := list Request -> Response.

(** What is taken from the libraries as given:
    - [prepare_request]: [Session.prepare_request] after [Request(...)], which
      upper-cases the method, parses and requotes the URL, checks and
      completes the headers and encodes the body, or raises
      ([MissingSchema], [InvalidURL], [InvalidHeader], ...);
    - [put_request]: what stands between a prepared request and the wire
      at each attempt, the connection for the URL and [http.client]'s
      [putrequest] and [putheader], which check the method, the URL and the
      headers and encode them, or raise ([ValueError],
      [UnicodeEncodeError]) before anything is sent;
    - [redirect_location]: the [Location] of a redirect as
      [get_redirect_target] returns it (decoded, or [UnicodeDecodeError]);
    - [rebuild_request]: the request that [resolve_redirects] builds to
      follow a redirect to that location (URL joined to the old one, method
      and body changed after a 301, 302 or 303, credentials dropped on a
      change of host);
    - [retry_date]: the seconds until the date of a [Retry-After] header
      ([email.utils.parsedate_tz] and [mktime_tz]), [InvalidHeader] when it
      is no date;
    - [time_sleep]: [time.sleep], which waits or refuses the number. *)
Record Library : Type := mkLibrary {
  prepare_request : Request -> result Request;
  put_request : Request -> result unit;
  redirect_location : string -> result string;
  rebuild_request : Request -> Response -> string -> result Request;
  retry_date : string -> result Z;
  time_sleep : Z -> result unit
}.

(** ** [urllib3.util.retry.Retry]

    Of the counters of a [Retry] only [total] is set by this program; the
    others ([connect], [read], [redirect], [status], [other]) stay unset and
    never take part in [is_exhausted].  The pause of [backoff_factor]
    between attempts is at most [BACKOFF_MAX] seconds and cannot fail; it
    takes time and nothing else, and is left out. *)
Module Retry.

Record t : Type := mk {
  total : Z;
  backoff_factor : Z;
  status_forcelist : list Z;
  allowed_methods : list string;
  respect_retry_after_header : bool;
  raise_on_status : bool
}.

Definition RETRY_AFTER_STATUS_CODES : list Z := [413; 429; 503].

(** The default set of methods, [Retry.DEFAULT_ALLOWED_METHODS]. *)
Definition DEFAULT_ALLOWED_METHODS : list string :=
  ["HEAD"; "GET"; "PUT"; "DELETE"; "OPTIONS"; "TRACE"].

Definition mem_Z (x : Z) (l : list Z) : bool := existsb (Z.eqb x) l.
Definition mem_string (x : string) (l : list string) : bool := existsb (String.eqb x) l.

Definition nonempty {A : Type} (l : list A) : bool :=
  match l with
  | [] => false
  | _ :: _ => true
  end.

(** The method comes from a request that [put_request] has encoded: it is
    ASCII text. *)
Definition _is_method_retryable (self : t) (method : string) : bool :=
  if nonempty (allowed_methods self)
     && negb (mem_string (Str.upper method) (allowed_methods self))
  then false
  else true.

Definition is_retry (self : t) (method : string) (status : Z) (has_retry_after : bool) : bool :=
  if negb (_is_method_retryable self method) then false
  else if nonempty (status_forcelist self) && mem_Z status (status_forcelist self) then true
  else negb (total self =? 0)
       && respect_retry_after_header self
       && has_retry_after
       && mem_Z status RETRY_AFTER_STATUS_CODES.

(** [is_exhausted]: the counters that are unset or zero are dropped, and
    the retry is exhausted when the least of the others is negative. *)
Definition is_exhausted (self : t) : bool :=
  if total self =? 0 then false else total self <? 0.

(** [increment] after a response: one less in [total]; [MaxRetryError]
    when that exhausts the retry. *)
Definition increment (self : t) : result t :=
  let new_retry :=
    mk (total self - 1) (backoff_factor self) (status_forcelist self)
       (allowed_methods self) (respect_retry_after_header self)
       (raise_on_status self) in
  if is_exhausted new_retry then Raise MaxRetryError else Return new_retry.

Fixpoint all_space (s : string) : bool :=
  match s with
  | EmptyString => true
  | String c s' => Str.is_space_re c && all_space s'
  end.

Fixpoint digits_then_space (s : string) : bool :=
  match s with
  | EmptyString => true
  | String c s' => if Str.is_digit c then digits_then_space s' else all_space s
  end.

Fixpoint space_then_digits (s : string) : bool :=
  match s with
  | EmptyString => false
  | String c s' =>
      if Str.is_space_re c then space_then_digits s'
      else Str.is_digit c && digits_then_space s'
  end.

(** [re.match(r"^\s*[0-9]+\s*$", s)]. *)
Definition matches_seconds (s : string) : bool := space_then_digits s.

(** [parse_retry_after]: a number of seconds goes through [int], anything
    else is read as a date; a negative wait counts as none. *)
Definition parse_retry_after (lib : Library) (retry_after : string) : result Z :=
  seconds ←
    (if matches_seconds retry_after
     then py_int (PyStr retry_after)
     else retry_date lib retry_after);
  mret (if seconds <? 0 then 0 else seconds).

(** [get_retry_after]: [None] without the header. *)
Definition get_retry_after (lib : Library) (response : Response) : result (option Z) :=
  match headers response !! Str.lower "Retry-After" with
  | None => Return None
  | Some retry_after => seconds ← parse_retry_after lib retry_after; mret (Some seconds)
  end.

(** [sleep_for_retry]: waits for the time of the header when it is not
    zero. *)
Definition sleep_for_retry (lib : Library) (response : Response) : result bool :=
  retry_after ← get_retry_after lib response;
  match retry_after with
  | None => Return false
  | Some seconds =>
      if seconds =? 0 then Return false
      else _ ← time_sleep lib seconds; mret true
  end.

(** [sleep]: the wait before the next attempt. *)
Definition sleep (lib : Library) (self : t) (response : Response) : result unit :=
  if respect_retry_after_header self
  then slept ← sleep_for_retry lib response; mret tt
  else Return tt.

End Retry.

(** ** [HTTPConnectionPool.urlopen] and [HTTPAdapter.send] *)

Definition inspect {A : Type} (a : A) : {b : A | a = b} := exist _ a eq_refl.

(** The status-retry loop of [urlopen]: the request is encoded and sent,
    and when [is_retry] says so the retry is counted down, the wait is made
    and the request is sent again.  Returns the outcome and the requests
    the server has received. *)
Equations? urlopen (lib : Library) (srv : Server) (req : Request) (retries : Retry.t)
    (log : list Request)
  : result Response * list Request by wf (Z.to_nat (Retry.total retries + 1)) lt :=
  urlopen lib srv req retries log with put_request lib req := {
    | Raise e := (Raise e, log);
    | Return _
        with inspect (Retry.is_retry retries (method req)
                        (status_code (srv (log ++ [req])%list))
                        (py_bool (headers_get (srv (log ++ [req])%list) "Retry-After"))) := {
        | exist _ false _ := (Return (srv (log ++ [req])%list), (log ++ [req])%list);
        | exist _ true _ with inspect (Retry.increment retries) := {
            | exist _ (Raise e) _ :=
                if Retry.raise_on_status retries
                then (Raise e, (log ++ [req])%list)
                else (Return (srv (log ++ [req])%list), (log ++ [req])%list);
            | exist _ (Return new_retry) Hinc
                with Retry.sleep lib new_retry (srv (log ++ [req])%list) := {
                | Raise e := (Raise e, (log ++ [req])%list);
                | Return _ := urlopen lib srv req new_retry (log ++ [req])%list } } } }.
Proof.
  revert Hinc. unfold Retry.increment, Retry.is_exhausted; cbn.
  destruct (Retry.total retries - 1 =? 0) eqn:E0.
  - intros [= <-]; cbn. lia.
  - destruct (Retry.total retries - 1 <? 0) eqn:E1; [discriminate|].
    intros [= <-]; cbn. lia.
Qed.

Record HTTPAdapter : Type := mkHTTPAdapter { max_retries : Retry.t }.

(** [HTTPAdapter()] without arguments: [Retry(0, read=False)]. *)
Definition default_adapter : HTTPAdapter :=
  mkHTTPAdapter (Retry.mk 0 0 [] Retry.DEFAULT_ALLOWED_METHODS true true).

(** [HTTPAdapter.send]: a [MaxRetryError] caused by responses becomes a
    [RetryError]; the other errors of the loop pass. *)
Definition send (lib : Library) (self : HTTPAdapter) (req : Request) (srv : Server)
    (log : list Request) : result Response * list Request :=
  match urlopen lib srv req (max_retries self) log with
  | (Raise MaxRetryError, log') => (Raise RetryError, log')
  | outcome => outcome
  end.

(** ** [requests.Session] *)

(** The adapters of a session, in the order [get_adapter] tries them. *)
Definition adapters_t : Type := list (string * HTTPAdapter).

Definition shorter (prefix : string) (kv : string * HTTPAdapter) : bool :=
  (String.length kv.1 <? String.length prefix)%nat.

(** [Session.mount]: the adapter is stored under [prefix], and the shorter
    prefixes move behind it. *)
Definition mount (prefix : string) (adapter : HTTPAdapter) (adapters : adapters_t) : adapters_t :=
  let stored :=
    if existsb (fun kv => String.eqb kv.1 prefix) adapters
    then List.map (fun kv => if String.eqb kv.1 prefix then (prefix, adapter) else kv) adapters
    else (adapters ++ [(prefix, adapter)])%list in
  (List.filter (fun kv => negb (shorter prefix kv)) stored
     ++ List.filter (shorter prefix) stored)%list.

(** [requests.Session()]: a default adapter for each of the two schemes. *)
Definition Session : adapters_t :=
  mount "http://" default_adapter (mount "https://" default_adapter []).

Fixpoint get_adapter (adapters : adapters_t) (url : string) : result HTTPAdapter :=
  match adapters with
  | [] => Raise InvalidSchema
  | (prefix, adapter) :: rest =>
      if Str.startswith (Str.lower prefix) (Str.lower url)
      then Return adapter
      else get_adapter rest url
  end.

(** [Session.send] of one prepared request, redirects aside: the adapter is
    chosen by the URL and sends the request. *)
Definition send_one (lib : Library) (adapters : adapters_t) (req : Request)
    (srv : Server) (log : list Request) : result Response * list Request :=
  match get_adapter adapters (url req) with
  | Raise e => (Raise e, log)
  | Return adapter => send lib adapter req srv log
  end.

Definition REDIRECT_STATI : list Z := [301; 302; 303; 307; 308].

(** [Response.is_redirect]. *)
Definition is_redirect (r : Response) : bool :=
  match headers r !! "location" with
  | Some _ => Retry.mem_Z (status_code r) REDIRECT_STATI
  | None => false
  end.

(** [Session.get_redirect_target]; an empty target does not count, since
    the loop runs [while url]. *)
Definition get_redirect_target (lib : Library) (r : Response) : result (option string) :=
  if is_redirect r then
    match headers r !! "location" with
    | Some location =>
        url ← redirect_location lib location;
        mret (if String.eqb url "" then None else Some url)
    | None => Return None
    end
  else Return None.

(** [Session.max_redirects]. *)
Definition DEFAULT_REDIRECT_LIMIT : nat := 30.

(** [Session.resolve_redirects]: while the answer is a redirect, the
    request is rebuilt and sent again; [remaining] is what is left of the
    limit, and the redirect that comes when nothing is left raises
    [TooManyRedirects]. *)
Fixpoint resolve_redirects (lib : Library) (adapters : adapters_t) (srv : Server)
    (remaining : nat) (req : Request) (resp : Response) (log : list Request)
  : result Response * list Request :=
  match get_redirect_target lib resp with
  | Raise e => (Raise e, log)
  | Return None => (Return resp, log)
  | Return (Some target) =>
      match remaining with
      | O => (Raise TooManyRedirects, log)
      | S remaining' =>
          match rebuild_request lib req resp target with
          | Raise e => (Raise e, log)
          | Return next =>
              match send_one lib adapters next srv log with
              | (Raise e, log') => (Raise e, log')
              | (Return resp', log') =>
                  resolve_redirects lib adapters srv remaining' next resp' log'
              end
          end
      end
  end.

(** [Session.send], with [allow_redirects] at its default. *)
Definition Session_send (lib : Library) (adapters : adapters_t) (req : Request)
    (srv : Server) (log : list Request) : result Response * list Request :=
  match send_one lib adapters req srv log with
  | (Raise e, log') => (Raise e, log')
  | (Return r, log') => resolve_redirects lib adapters srv DEFAULT_REDIRECT_LIMIT req r log'
  end.

(** [Session.request]: the request is prepared, then sent. *)
Definition request (lib : Library) (adapters : adapters_t)
    (method url : string) (json : json) (headers : list (string * string))
    (srv : Server) (log : list Request) : result Response * list Request :=
  match prepare_request lib (mkRequest method url headers json) with
  | Raise e => (Raise e, log)
  | Return prepared => Session_send lib adapters prepared srv log
  end.

(** ** [FrameioClient] *)

Record FrameioClient : Type := mkFrameioClient {
  token : string;
  host : string;
  retry_strategy : Retry.t;
  client_version : string
}.

Definition default_host : string := "https://api.frame.io".

(** [FrameioClient.__init__]; [version] is what the package metadata gives
    for [frameioclient].  The retry is [Retry(total=3, backoff_factor=1,
    status_forcelist=[429], method_whitelist=["POST", "OPTIONS", "GET"])],
    the other parameters at their defaults. *)
Definition FrameioClient_init (token host version : string) : FrameioClient :=
  {| token := token;
     host := host;
     retry_strategy :=
       Retry.mk 3 1 [429] ["POST"; "OPTIONS"; "GET"] true true;
     client_version := version |}.

(** What [_api_call] hands to the session: the method as given, the URL
    and the two headers. *)
Definition request_of (self : FrameioClient) (method endpoint : string) (payload : json)
  : Request :=
  mkRequest method (host self +:+ "/v2" +:+ endpoint)
    [("Authorization", "Bearer " +:+ token self);
     ("x-frameio-client", "python/" +:+ client_version self)]
    payload.

(** Lines 49 to 66 of [_api_call]: the request is built and sent through a
    session whose [https://] adapter carries the client's retry strategy. *)
Definition dispatch (lib : Library) (self : FrameioClient) (method endpoint : string)
    (payload : json) (srv : Server) (log : list Request) : result Response * list Request :=
  let url := host self +:+ "/v2" +:+ endpoint in
  let headers :=
    [("Authorization", "Bearer " +:+ token self);
     ("x-frameio-client", "python/" +:+ client_version self)] in
  let adapter := mkHTTPAdapter (retry_strategy self) in
  let http := mount "https://" adapter Session in
  request lib http method url payload headers srv log.

Definition _api_call (lib : Library) (self : FrameioClient) (method endpoint : string)
    (payload : json) (srv : Server) (log : list Request)
  : result api_value * list Request :=
  let '(r, log') := dispatch lib self method endpoint payload srv log in
  (r ≫= interpret endpoint, log').

(** The attempts a call makes: the requests that reach the server. *)
Definition attempts (lib : Library) (self : FrameioClient) (method endpoint : string)
    (payload : json) (srv : Server) : nat :=
  List.length (_api_call lib self method endpoint payload srv []).2.

(** [get_me], one of the call sites. *)
Definition get_me (lib : Library) (self : FrameioClient) (srv : Server) (log : list Request)
  : result api_value * list Request :=
  _api_call lib self "get" "/me" (JObj []) srv log.

(** ** [FrameioDownloader] *)

(** [os.path.join(a, b)] on a POSIX system. *)
Definition os_path_join (a b : string) : string :=
  if Str.startswith "/" b then b
  else if String.eqb a "" || Str.endswith_char "/" a then a +:+ b
  else a +:+ "/" +:+ b.

(** What becomes of the bytes written to a file just opened: all of them
    are stored; or the write raises and [stored] is what the file is left
    with; or the bytes stay in the buffer of the file object, which is
    never closed explicitly, and are lost without an error when it is
    dropped. *)
Inductive write_result : Type :=
| Written
| Failed (stored : string)
| Lost (stored : string).

(** What a download touches: the storage service behind [requests.get] (it
    answers, or the call raises), and the file system: the files with
    their bytes, the file that each path names ([resolve]: two spellings
    of one file, or a link and its target, name the same file), the paths
    that [open(path, 'wb')] can open, and what becomes of a write. *)
Record World : Type := mkWorld {
  fetch : string -> result Response;
  files : gmap positive string;
  resolve : string -> positive;
  can_open : string -> bool;
  write : string -> string -> write_result
}.

Definition with_files (w : World) (fs : gmap positive string) : World :=
  {| fetch := fetch w; files := fs; resolve := resolve w;
     can_open := can_open w; write := write w |}.

(** The bytes found at [path]. *)
Definition read (w : World) (path : string) : option string :=
  files w !! resolve w path.

(** [requests.get(url)]. *)
Definition requests_get (w : World) (url : string) : result Response := fetch w url.

(** [open(path, 'wb').write(data)]: the file is created or truncated by
    [open], then takes what the write stores. *)
Definition open_wb_write (path data : string) (w : World) : result unit * World :=
  if can_open w path then
    match write w path data with
    | Written => (Return tt, with_files w (<[resolve w path := data]> (files w)))
    | Failed stored =>
        (Raise (IOError path), with_files w (<[resolve w path := stored]> (files w)))
    | Lost stored => (Return tt, with_files w (<[resolve w path := stored]> (files w)))
    end
  else (Raise (IOError path), w).

(** [asset[key]] on the descriptor, a [dict]. *)
Definition asset_getitem (asset : gmap string string) (key : string) : result string :=
  match asset !! key with
  | Some v => Return v
  | None => Raise (KeyError key)
  end.

Record FrameioDownloader : Type := mkFrameioDownloader {
  asset : gmap string string;
  download_folder : string
}.

Definition download (self : FrameioDownloader) (w : World) : result unit * World :=
  match asset_getitem (asset self) "name" with
  | Raise e => (Raise e, w)
  | Return original_filename =>
      let final_destination := os_path_join (download_folder self) original_filename in
      match asset_getitem (asset self) "original" with
      | Raise e => (Raise e, w)
      | Return url =>
          match requests_get w url with
          | Raise e => (Raise e, w)
          | Return r => open_wb_write final_destination (content r) w
          end
      end
  end.

(** [FrameioClient.download]. *)
Definition FrameioClient_download (asset : gmap string string) (download_folder : string)
    (w : World) : result unit * World :=
  download (mkFrameioDownloader asset download_folder) w.

(** ** Sample inputs *)

(** A library for the examples, right for ASCII methods, for URLs and
    headers that need no change, for 307 and 308 redirects to an absolute
    URL on the same host, and for [Retry-After] values that are no dates:
    the preparation upper-cases the method and keeps the rest, every
    request can be encoded, a redirect keeps the request and changes its
    URL, no [Retry-After] value is a date, and every wait is made. *)
Definition wire : Library :=
  {| prepare_request := fun req =>
       Return (mkRequest (Str.upper (method req)) (url req) (request_headers req) (payload req));
     put_request := fun _ => Return tt;
     redirect_location := fun location => Return location;
     rebuild_request := fun req _ target =>
       Return (mkRequest (method req) target (request_headers req) (payload req));
     retry_date := fun _ => Raise InvalidHeader;
     time_sleep := fun _ => Return tt |}.

Definition always_429 : Server := fun _ => mkResponse 429 ∅ "" None.

Definition sample_client : FrameioClient := FrameioClient_init "t0k3n" default_host "0.7.4".

Definition page_headers (pn pp tp tot : string) : gmap string string :=
  <["page-number" := pn]> (<["per-page" := pp]> (<["total-pages" := tp]> (<["total" := tot]> ∅))).

Definition listing_page : Response :=
  mkResponse 200 (page_headers "1" "3" "4" "10") "[1, 2, 3]"
    (Some (JArr [JInt 1; JInt 2; JInt 3])).

Definition single_page : Response :=
  mkResponse 200 (page_headers "1" "3" "1" "2") "[1, 2]" (Some (JArr [JInt 1; JInt 2])).

(** A page whose headers are integers the data model does not allow, with
    more items than [per-page] says. *)
Definition odd_page : Response :=
  mkResponse 200 (page_headers "0" "0" "2" "-1") "[1]" (Some (JArr [JInt 1])).

Definition no_total_pages : Response :=
  mkResponse 200 (<["page-number" := "1"]> ∅) "[]" (Some (JArr [])).

Definition unprocessable : Response :=
  mkResponse 422 ∅ "{}" (Some (JObj [])).

(** The invariant the data model states for a paginated result. *)
Definition data_model_invariant (p : PaginatedResponse) : Prop :=
  (forall n, results_len p = Some n -> n <= page_size p)
  /\ 1 <= page p /\ 0 <= page_size p /\ 0 <= total p /\ 1 <= total_pages p.

(** An asset descriptor, and a world whose storage service answers every
    URL with the given status and body, and whose file system holds
    [disk], has one file per path, opens every path and stores every
    write. *)
Definition clip_asset : gmap string string :=
  <["name" := "clip.mp4"]> (<["original" := "https://storage.example/clip"]> ∅).

Definition clip_downloader : FrameioDownloader := mkFrameioDownloader clip_asset "D".

Definition storage_on (disk : gmap positive string) (status : Z) (body : string) : World :=
  mkWorld (fun _ => Return (mkResponse status ∅ body None)) disk encode
    (fun _ => true) (fun _ _ => Written).

Definition storage : Z -> string -> World := storage_on ∅.

(** The same, on a disk that is full: a write stores nothing and raises. *)
Definition full_disk (status : Z) (body : string) : World :=
  mkWorld (fun _ => Return (mkResponse status ∅ body None)) ∅ encode
    (fun _ => true) (fun _ _ => Failed "").

(** A world in which [D/clip.mp4] and [E/clip.mp4] are two names of one
    file. *)
Definition linked (status : Z) (body : string) : World :=
  mkWorld (fun _ => Return (mkResponse status ∅ body None)) ∅
    (fun path => if String.eqb path "E/clip.mp4" then encode "D/clip.mp4" else encode path)
    (fun _ => true) (fun _ _ => Written).

(** ** The resource methods

    Each one formats its endpoint and hands over to [_api_call].  The
    identifiers are strings, so ['/assets/{}'.format(asset_id)] is a
    concatenation.  Keyword arguments ([**kwargs]) are the names with their
    values, in the order given, the names distinct. *)

(** [self._api_call(method, endpoint, **kwargs)]: the keywords are bound to
    the parameters of [_api_call].  [method] and [endpoint] are taken, so
    only [payload] can be given this way; any other keyword is a [TypeError]
    of the call itself, raised before the body of [_api_call] runs. *)
Definition _api_call_unpacked (lib : Library) (self : FrameioClient) (method endpoint : string)
    (kwargs : list (string * json)) (srv : Server) (log : list Request)
  : result api_value * list Request :=
  match kwargs with
  | [] => _api_call lib self method endpoint (JObj []) srv log
  | [(k, v)] =>
      if String.eqb k "payload"
      then _api_call lib self method endpoint v srv log
      else (Raise TypeError, log)
  | _ => (Raise TypeError, log)
  end.

Definition get_asset (lib : Library) (self : FrameioClient) (asset_id : string)
    (srv : Server) (log : list Request) : result api_value * list Request :=
  _api_call lib self "get" ("/assets/" +:+ asset_id) (JObj []) srv log.



Definition get_comment (lib : Library) (self : FrameioClient) (comment_id : string)
    (kwargs : list (string * json)) (srv : Server) (log : list Request)
  : result api_value * list Request :=
  _api_call_unpacked lib self "get" ("/comments/" +:+ comment_id) kwargs srv log.

Definition get_comments (lib : Library) (self : FrameioClient) (asset_id : string)
    (kwargs : list (string * json)) (srv : Server) (log : list Request)
  : result api_value * list Request :=
  _api_call_unpacked lib self "get" ("/assets/" +:+ asset_id +:+ "/comments") kwargs srv log.

Definition create_presentation_link (lib : Library) (self : FrameioClient) (asset_id : string)
    (kwargs : list (string * json)) (srv : Server) (log : list Request)
  : result api_value * list Request :=
  _api_call lib self "post" ("/assets/" +:+ asset_id +:+ "/presentations") (JObj kwargs) srv log.

(** [d[key] = value] on a [dict]: the value of a key that is there is
    replaced in place, a new key goes to the end. *)
Definition dict_setitem (key : string) (value : json) (d : list (string * json))
  : list (string * json) :=
  if existsb (fun kv => String.eqb kv.1 key) d
  then List.map (fun kv => if String.eqb kv.1 key then (key, value) else kv) d
  else (d ++ [(key, value)])%list.

(** [d[key].append(x)] where [d[key]] is a list. *)
Definition dict_append (key : string) (x : json) (d : list (string * json))
  : list (string * json) :=
  List.map
    (fun kv =>
       if String.eqb kv.1 key
       then match kv.2 with
            | JArr items => (kv.1, JArr (items ++ [x])%list)
            | _ => kv
            end
       else kv)
    d.

(** The payload that [bulk_copy_assets] builds: the dict starts as
    [{"batch": []}], takes [copy_comments] when asked, and the loop appends
    one [{"id": asset}] per asset. *)
Definition bulk_copy_payload (asset_list : list json) (copy_comments : bool)
  : list (string * json) :=
  let payload := [("batch", JArr [])] in
  let payload :=
    if copy_comments then dict_setitem "copy_comments" (JStr "all") payload else payload in
  fold_left (fun payload asset => dict_append "batch" (JObj [("id", asset)]) payload)
    asset_list payload.

Definition bulk_copy_assets (lib : Library) (self : FrameioClient)
    (destination_folder_id : string) (asset_list : list json) (copy_comments : bool)
    (srv : Server) (log : list Request) : result api_value * list Request :=
  _api_call lib self "post" ("/batch/assets/" +:+ destination_folder_id +:+ "/copy")
    (JObj (bulk_copy_payload asset_list copy_comments)) srv log.

(** ** More sample inputs *)

(** A server that gives the same answer to everything. *)
Definition answers (r : Response) : Server := fun _ => r.

(** A server that answers 429 to its first [k] requests and [r] afterwards. *)
Definition busy_then (k : nat) (r : Response) : Server :=
  fun log => if (List.length log <=? k)%nat then mkResponse 429 ∅ "" None else r.

Definition me_response : Response :=
  mkResponse 200 ∅ "{}" (Some (JObj [])).

Definition unavailable : Response :=
  mkResponse 503 (<["retry-after" := "1"]> ∅) "" None.

(** A rate-limited answer whose [Retry-After] is neither a number of
    seconds nor a date. *)
Definition come_back_soon : Response :=
  mkResponse 429 (<["retry-after" := "soon"]> ∅) "" None.

(** A redirect, and a server that answers its first request with it and
    [r] afterwards. *)
Definition moved : Response :=
  mkResponse 307 (<["location" := "https://api.frame.io/v2/accounts/me"]> ∅) "" None.

Definition moved_then (r : Response) : Server :=
  fun log => if (List.length log <=? 1)%nat then moved else r.

Definition not_found : Response :=
  mkResponse 404 ∅ "{}" (Some (JObj [])).

Definition no_content : Response :=
  mkResponse 204 ∅ "" None.

(** The request that reaches the server with the library [wire]. *)
Definition wire_request (self : FrameioClient) (method endpoint : string) (payload : json)
  : Request :=
  mkRequest (Str.upper method) (host self +:+ "/v2" +:+ endpoint)
    [("Authorization", "Bearer " +:+ token self);
     ("x-frameio-client", "python/" +:+ client_version self)]
    payload.

(** * Properties *)

(** ** Strings *)

Section StringFacts.

Lemma app_nil_l (s : string) : "" +:+ s = s.
Proof. reflexivity. Qed.

Lemma app_cons (c : ascii) (s t : string) : String c s +:+ t = String c (s +:+ t).
Proof. reflexivity. Qed.

Lemma startswith_app (p s : string) : Str.startswith p (p +:+ s) = true.
Proof.
  induction p as [|a p IH]; [done|].
  rewrite app_cons; cbn. by rewrite Ascii.eqb_refl.
Qed.

Lemma startswith_split (p s : string) :
  Str.startswith p s = true -> exists t, s = p +:+ t.
Proof.
  revert s. induction p as [|a p IH]; intros s; cbn.
  - intros _. by exists s.
  - destruct s as [|b s]; [done|].
    destruct (Ascii.eqb a b) eqn:E; [|done].
    apply Ascii.eqb_eq in E as ->.
    intros [t ->]%IH. by exists t.
Qed.

Lemma startswith_weaken (p s t : string) :
  Str.startswith p s = true -> Str.startswith p (s +:+ t) = true.
Proof.
  revert s. induction p as [|a p IH]; intros s; cbn; [done|].
  destruct s as [|b s]; [done|]. rewrite app_cons.
  destruct (Ascii.eqb a b); [apply IH | done].
Qed.

Lemma map_app (f : ascii -> ascii) (s t : string) :
  Str.map f (s +:+ t) = Str.map f s +:+ Str.map f t.
Proof.
  induction s as [|a s IH]; [done|].
  rewrite app_cons; cbn. by rewrite IH, app_cons.
Qed.

(** [sub in s] holds exactly when [s] is [a + sub + b] for some [a], [b]. *)
Lemma contains_spec (sub s : string) :
  Str.contains sub s = true <-> exists a b, s = a +:+ sub +:+ b.
Proof.
  split.
  - induction s as [|c s IH]; cbn.
    + rewrite orb_false_r. intros [t ->]%startswith_split. by exists "", t.
    + intros [H|H]%orb_true_iff.
      * apply startswith_split in H as [t ->]. by exists "", t.
      * destruct (IH H) as (a & b & ->). by exists (String c a), b.
  - intros (a & b & ->). induction a as [|c a IH].
    + rewrite app_nil_l.
      destruct (sub +:+ b) eqn:E; cbn; rewrite <- E, startswith_app; done.
    + rewrite app_cons; cbn. rewrite IH. apply orb_true_r.
Qed.

Lemma int_of_str_nonempty (s : string) (z : Z) : int_of_str s = Some z -> s <> "".
Proof. intros H ->. discriminate H. Qed.

End StringFacts.

(** ** The response interpreter *)

Section Interpreter.

Variable endpoint : string.
Variable r : Response.

Lemma ok_2xx : 200 <= status_code r < 300 -> ok r = true.
Proof.
  intros H. unfold ok, raise_for_status.
  destruct (400 <=? status_code r) eqn:E; [lia|]. done.
Qed.

Lemma not_ok_422 : status_code r = 422 -> ok r = false /\ raise_for_status r = Raise (HTTPError r).
Proof. intros H. unfold ok, raise_for_status. rewrite H. done. Qed.

Lemma headers_get_some (k v : string) :
  headers r !! Str.lower k = Some v -> headers_get r k = PyStr v.
Proof. intros H. unfold headers_get. by rewrite H. Qed.

Lemma headers_get_none (k : string) :
  headers r !! Str.lower k = None -> headers_get r k = PyNone.
Proof. intros H. unfold headers_get. by rewrite H. Qed.

Lemma headers_getitem_some (k v : string) :
  headers r !! Str.lower k = Some v -> headers_getitem r k = Return (PyStr v).
Proof. intros H. unfold headers_getitem. by rewrite H. Qed.

Lemma py_bool_str (s : string) : s <> "" -> py_bool (PyStr s) = true.
Proof. intros H. cbn. by destruct s. Qed.

Lemma py_int_str (s : string) (z : Z) : int_of_str s = Some z -> py_int (PyStr s) = Return z.
Proof. intros H. cbn. by rewrite H. Qed.

End Interpreter.

Section Classification.

Variable endpoint : string.
Variable r : Response.

(** C3. A 2xx response with a [page-number] header whose [total-pages]
    header coerces to an integer greater than 1 is returned as a
    [PaginatedResponse]: its [page], [page_size], [total] and
    [total_pages] are the integers that [int] makes of the [page-number],
    [per-page], [total] and [total-pages] header values, and its
    [results] is the decoded body. *)
Theorem interpret_paginated
    (pn pp tp tot : string) (n_page n_size n_total n_pages : Z) (body : json) :
  200 <= status_code r < 300 ->
  headers r !! "page-number" = Some pn ->
  headers r !! "per-page" = Some pp ->
  headers r !! "total-pages" = Some tp ->
  headers r !! "total" = Some tot ->
  int_of_str pn = Some n_page ->
  int_of_str pp = Some n_size ->
  int_of_str tot = Some n_total ->
  int_of_str tp = Some n_pages ->
  1 < n_pages ->
  decoded r = Some body ->
  interpret endpoint r
  = Return (Paginated (mkPaginatedResponse body n_page n_size n_total n_pages)).
Proof.
  intros Hst Hpn Hpp Htp Htot Ipn Ipp Itot Itp Hgt Hbody.
  unfold interpret. rewrite (ok_2xx r Hst).
  rewrite (headers_get_some r "page-number" pn Hpn).
  rewrite (py_bool_str pn (int_of_str_nonempty pn n_page Ipn)).
  rewrite (headers_get_some r "total-pages" tp Htp).
  rewrite (py_int_str tp n_pages Itp); cbn.
  destruct (1 <? n_pages) eqn:E; [|lia].
  unfold Response_json. rewrite Hbody; cbn.
  rewrite (headers_getitem_some r "page-number" pn Hpn); cbn.
  rewrite (headers_getitem_some r "per-page" pp Hpp); cbn.
  rewrite (headers_getitem_some r "total-pages" tp Htp); cbn.
  rewrite (headers_getitem_some r "total" tot Htot); cbn.
  by rewrite Ipn, Ipp, Itot, Itp.
Qed.

(** C4. A 2xx response without a [page-number] header, or with one and a
    [total-pages] header equal to 1, gives the decoded body as it is, not
    wrapped in a [PaginatedResponse]. *)
Theorem interpret_unwrapped :
  200 <= status_code r < 300 ->
  headers r !! "page-number" = None
  \/ (is_Some (headers r !! "page-number")
      /\ exists tp, headers r !! "total-pages" = Some tp /\ int_of_str tp = Some 1) ->
  interpret endpoint r
  = match decoded r with
    | Some body => Return (Plain body)
    | None => Raise ValueError
    end.
Proof.
  intros Hst Hcase.
  assert (Hjson : (Response_json r ≫= λ body, mret (Plain body))
                  = match decoded r with
                    | Some body => Return (Plain body)
                    | None => Raise ValueError
                    end).
  { unfold Response_json. by destruct (decoded r). }
  unfold interpret. rewrite (ok_2xx r Hst), Hjson.
  destruct Hcase as [Hnone | [_ (tp & Htp & Itp)]].
  - by rewrite (headers_get_none r "page-number" Hnone).
  - destruct (py_bool (headers_get r "page-number")); [|done].
    rewrite (headers_get_some r "total-pages" tp Htp).
    by rewrite (py_int_str tp 1 Itp).
Qed.

(** C5. A response with status 422 raises [PresentationException] when
    the endpoint contains "presentation", and otherwise the [HTTPError]
    of [raise_for_status], which carries the response with its status
    code and body. *)
Theorem interpret_422 :
  status_code r = 422 ->
  ((exists a b, endpoint = a +:+ "presentation" +:+ b) ->
     interpret endpoint r = Raise PresentationException)
  /\ (~ (exists a b, endpoint = a +:+ "presentation" +:+ b) ->
     interpret endpoint r = Raise (HTTPError r)).
Proof.
  intros Hst. destruct (not_ok_422 r Hst) as [Hok Hraise].
  unfold interpret. rewrite Hok, Hraise, Hst. cbn [Z.eqb Pos.eqb andb].
  split; intros H.
  - apply contains_spec in H. by rewrite H.
  - destruct (Str.contains "presentation" endpoint) eqn:E; [|done].
    apply contains_spec in E. contradiction.
Qed.

(** C10. A 2xx response with a non-empty [page-number] header and no
    [total-pages] header makes the call raise: [int] is applied to
    [None], and neither the body nor a [PaginatedResponse] is returned. *)
Theorem interpret_missing_total_pages (pn : string) :
  200 <= status_code r < 300 ->
  headers r !! "page-number" = Some pn ->
  pn <> "" ->
  headers r !! "total-pages" = None ->
  interpret endpoint r = Raise TypeError
  /\ forall lib self method payload srv log log',
       dispatch lib self method endpoint payload srv log = (Return r, log') ->
       _api_call lib self method endpoint payload srv log = (Raise TypeError, log').
Proof.
  intros Hst Hpn Hne Htp.
  assert (Hint : interpret endpoint r = Raise TypeError).
  { unfold interpret. rewrite (ok_2xx r Hst).
    rewrite (headers_get_some r "page-number" pn Hpn), (py_bool_str pn Hne).
    by rewrite (headers_get_none r "total-pages" Htp). }
  split; [done|].
  intros lib self method payload srv log log' Hd.
  unfold _api_call. rewrite Hd. cbn. by rewrite Hint.
Qed.

End Classification.

Lemma interpret_paginated_witness :
  interpret "/projects/p1/collaborators" listing_page
  = Return (Paginated (mkPaginatedResponse (JArr [JInt 1; JInt 2; JInt 3]) 1 3 10 4)).
Proof.
  apply (interpret_paginated "/projects/p1/collaborators" listing_page "1" "3" "4" "10");
    solve [reflexivity | cbn; lia].
Defined.

Lemma interpret_unwrapped_witness :
  interpret "/projects/p1/collaborators" single_page
  = Return (Plain (JArr [JInt 1; JInt 2])).
Proof.
  apply (interpret_unwrapped "/projects/p1/collaborators" single_page).
  - cbn; lia.
  - right. split; [by exists "1" | by exists "1"].
Defined.

Lemma interpret_422_witness :
  interpret "/assets/a1/presentations" unprocessable = Raise PresentationException
  /\ interpret "/assets/a1/comments" unprocessable = Raise (HTTPError unprocessable).
Proof.
  split.
  - apply (interpret_422 "/assets/a1/presentations" unprocessable eq_refl).
    by exists "/assets/a1/", "s".
  - apply (interpret_422 "/assets/a1/comments" unprocessable eq_refl).
    intros H. apply contains_spec in H. discriminate H.
Defined.

Lemma interpret_missing_total_pages_witness :
  interpret "/teams/t1/projects" no_total_pages = Raise TypeError.
Proof.
  apply (interpret_missing_total_pages "/teams/t1/projects" no_total_pages "1");
    solve [reflexivity | cbn; lia | discriminate].
Defined.

(** ** [PaginatedResponse] *)

Section Paginated.

Lemma bind_Return {A B : Type} (m : result A) (k : A -> result B) (b : B) :
  m ≫= k = Return b -> exists a, m = Return a /\ k a = Return b.
Proof. destruct m as [a|e]; [|done]. intros H. by exists a. Qed.

Lemma headers_getitem_get (r : Response) (k : string) (o : pyobj) :
  headers_getitem r k = Return o -> headers_get r k = o.
Proof.
  unfold headers_getitem, headers_get.
  destruct (headers r !! Str.lower k); [|done]. by intros [= <-].
Qed.

Lemma PaginatedResponse_init_Return results page page_size total total_pages p :
  PaginatedResponse_init results page page_size total total_pages = Return p ->
  exists a b c d,
    py_int page = Return a /\ py_int page_size = Return b
    /\ py_int total = Return c /\ py_int total_pages = Return d
    /\ p = mkPaginatedResponse results a b c d.
Proof.
  unfold PaginatedResponse_init.
  intros (a & Ha & H)%bind_Return.
  apply bind_Return in H as (b & Hb & H).
  apply bind_Return in H as (c & Hc & H).
  apply bind_Return in H as (d & Hd & H).
  injection H as <-. by exists a, b, c, d.
Qed.

(** C6 (as the code has it). The interpreter produces a
    [PaginatedResponse] only for a response whose [total-pages] header is
    an integer greater than 1, so its [total_pages] is at least 2; its
    numbers are what [int] makes of the four headers and its [results] is
    the decoded body.  Nothing bounds [page], [page_size], [total] or the
    length of [results]. *)
Theorem interpret_paginated_only_multipage (endpoint : string) (r : Response)
    (p : PaginatedResponse) :
  interpret endpoint r = Return (Paginated p) ->
  2 <= total_pages p
  /\ py_int (headers_get r "total-pages") = Return (total_pages p)
  /\ py_int (headers_get r "page-number") = Return (page p)
  /\ py_int (headers_get r "per-page") = Return (page_size p)
  /\ py_int (headers_get r "total") = Return (total p)
  /\ decoded r = Some (results p).
Proof.
  unfold interpret.
  destruct (ok r).
  - destruct (py_bool (headers_get r "page-number")).
    + intros (n & Hn & H)%bind_Return.
      destruct (1 <? n) eqn:E.
      * apply bind_Return in H as (body & Hbody & H).
        apply bind_Return in H as (o1 & H1%headers_getitem_get & H).
        apply bind_Return in H as (o2 & H2%headers_getitem_get & H).
        apply bind_Return in H as (o3 & H3%headers_getitem_get & H).
        apply bind_Return in H as (o4 & H4%headers_getitem_get & H).
        apply bind_Return in H as (q & Hq & H).
        injection H as ->.
        apply PaginatedResponse_init_Return in Hq as (a & b & c & d & Ha & Hb & Hc & Hd & ->).
        cbn. rewrite H1, H2, H4, Ha, Hb, Hc.
        rewrite H3, Hd in Hn. injection Hn as ->.
        unfold Response_json in Hbody.
        destruct (decoded r); [|done]. injection Hbody as ->.
        repeat split; try done; [lia | by rewrite H3].
      * apply bind_Return in H as (body & _ & H). discriminate H.
    + intros (body & _ & H)%bind_Return. discriminate H.
  - destruct (_ && _); [done|].
    intros (u & _ & H)%bind_Return. discriminate H.
Qed.

(** C7. When one of the four numbers given to the constructor is a string
    that [int] does not accept, the construction raises ([ValueError] from
    that [int], or the error of an earlier coercion) and no
    [PaginatedResponse] comes out with a defaulted field. *)
Theorem PaginatedResponse_init_malformed
    (results : json) (page page_size total total_pages : pyobj) (s : string) :
  In (PyStr s) [page; page_size; total; total_pages] ->
  int_of_str s = None ->
  exists e, PaginatedResponse_init results page page_size total total_pages = Raise e
            /\ (e = ValueError \/ e = TypeError).
Proof.
  intros Hin Hs.
  assert (Hbad : py_int (PyStr s) = Raise ValueError) by (cbn; by rewrite Hs).
  assert (Hany : forall o, (exists z, py_int o = Return z)
                           \/ py_int o = Raise ValueError \/ py_int o = Raise TypeError).
  { intros [|z|t]; cbn; eauto. destruct (int_of_str t); eauto. }
  unfold PaginatedResponse_init.
  destruct (Hany page) as [[a Ha]|[Ha|Ha]]; rewrite Ha; cbn; eauto.
  destruct (Hany page_size) as [[b Hb]|[Hb|Hb]]; rewrite Hb; cbn; eauto.
  destruct (Hany total) as [[c Hc]|[Hc|Hc]]; rewrite Hc; cbn; eauto.
  destruct (Hany total_pages) as [[d Hd]|[Hd|Hd]]; rewrite Hd; cbn; eauto.
  exfalso. cbn in Hin.
  destruct Hin as [->|[->|[->|[->|[]]]]]; congruence.
Qed.

(** C8. Iterating a [PaginatedResponse] yields the items of its [results],
    in their order, and nothing else; the one built from [[a, b, c]],
    page 1, page size 3, total 10 and 4 pages yields [a], [b], [c].  The
    iteration reads the object alone: it takes no server and sends no
    request. *)
Theorem PaginatedResponse_iter_results :
  (forall (items : list json) (page page_size total total_pages : Z),
     PaginatedResponse_iter (mkPaginatedResponse (JArr items) page page_size total total_pages)
     = Return items)
  /\ (forall a b c : json,
        PaginatedResponse_init (JArr [a; b; c]) (PyInt 1) (PyInt 3) (PyInt 10) (PyInt 4)
          ≫= PaginatedResponse_iter
        = Return [a; b; c]).
Proof. split; reflexivity. Qed.

End Paginated.

Lemma interpret_paginated_only_multipage_witness :
  2 <= 2
  /\ py_int (headers_get odd_page "total-pages") = Return 2
  /\ py_int (headers_get odd_page "page-number") = Return 0
  /\ py_int (headers_get odd_page "per-page") = Return 0
  /\ py_int (headers_get odd_page "total") = Return (-1)
  /\ decoded odd_page = Some (JArr [JInt 1]).
Proof.
  exact (interpret_paginated_only_multipage "/assets/a1/children" odd_page
           (mkPaginatedResponse (JArr [JInt 1]) 0 0 (-1) 2) eq_refl).
Defined.

(** A [per-page] header that is not a number stops the call with
    [ValueError]. *)
Example interpret_malformed_per_page :
  interpret "/assets/a1/children"
    (mkResponse 200 (page_headers "1" "ten" "4" "10") "[]" (Some (JArr [])))
  = Raise ValueError.
Proof. reflexivity. Qed.

(** [int] drops the white space around a number, the no-break space
    included, but not the separators 28 to 31: a header value that begins
    with one of them is refused. *)
Example int_white_space :
  int_of_str (String (ascii_of_nat 32) "7 ") = Some 7
  /\ int_of_str (String (ascii_of_nat 160) "7") = Some 7
  /\ int_of_str (String (ascii_of_nat 28) "7") = None
  /\ int_of_str (String (ascii_of_nat 31) "7") = None.
Proof. repeat split; reflexivity. Qed.

Lemma PaginatedResponse_init_malformed_witness :
  exists e, PaginatedResponse_init (JArr []) (PyStr "1") (PyStr "ten") (PyStr "3") (PyStr "2")
            = Raise e
            /\ (e = ValueError \/ e = TypeError).
Proof.
  apply (PaginatedResponse_init_malformed _ _ _ _ _ "ten").
  - right; left; reflexivity.
  - reflexivity.
Defined.

(** C6 (as the data model states it) does not hold: a page whose headers
    read page 0, page size 0, total -1 comes out as a [PaginatedResponse]
    with one item, and the constructor's defaults give page 0 of 0. *)
Lemma data_model_invariant_counterexample :
  interpret "/assets/a1/children" odd_page
  = Return (Paginated (mkPaginatedResponse (JArr [JInt 1]) 0 0 (-1) 2))
  /\ ~ data_model_invariant (mkPaginatedResponse (JArr [JInt 1]) 0 0 (-1) 2)
  /\ PaginatedResponse_default = Return (mkPaginatedResponse (JArr []) 0 0 0 0)
  /\ ~ data_model_invariant (mkPaginatedResponse (JArr []) 0 0 0 0).
Proof.
  repeat split; try reflexivity.
  - intros (_ & H & _). cbn in H. lia.
  - intros (_ & H & _). cbn in H. lia.
Qed.

(** ** The retry policy and the dispatcher *)

Section RetryFacts.

Lemma increment_total (self new_retry : Retry.t) :
  Retry.increment self = Return new_retry ->
  Retry.total new_retry = Retry.total self - 1 /\ 0 <= Retry.total new_retry.
Proof.
  unfold Retry.increment, Retry.is_exhausted; cbn.
  destruct (Retry.total self - 1 =? 0) eqn:E0.
  - intros [= <-]; cbn. lia.
  - destruct (Retry.total self - 1 <? 0) eqn:E1; [discriminate|].
    intros [= <-]; cbn. lia.
Qed.

Lemma increment_keeps (self new_retry : Retry.t) :
  Retry.increment self = Return new_retry ->
  Retry.status_forcelist new_retry = Retry.status_forcelist self
  /\ Retry.allowed_methods new_retry = Retry.allowed_methods self
  /\ Retry.raise_on_status new_retry = Retry.raise_on_status self.
Proof.
  unfold Retry.increment.
  destruct (Retry.is_exhausted _); [discriminate|].
  intros [= <-]; cbn. auto.
Qed.

Lemma increment_raises (self : Retry.t) (e : exn) :
  Retry.increment self = Raise e -> e = MaxRetryError /\ Retry.total self <= 0.
Proof.
  unfold Retry.increment, Retry.is_exhausted; cbn.
  destruct (Retry.total self - 1 =? 0) eqn:E0; [discriminate|].
  destruct (Retry.total self - 1 <? 0) eqn:E1; [|discriminate].
  intros [= <-]. split; [done|lia].
Qed.

Lemma is_retry_forced (self : Retry.t) (m : string) (status : Z) (h : bool) :
  Retry._is_method_retryable self m = true ->
  Retry.mem_Z status (Retry.status_forcelist self) = true ->
  Retry.is_retry self m status h = true.
Proof.
  intros Hm Hs. unfold Retry.is_retry. rewrite Hm, Hs; cbn.
  destruct (Retry.status_forcelist self); [discriminate Hs | done].
Qed.


End RetryFacts.


Section RetryLoop.

Variable lib : Library.
Variable srv : Server.

(** One turn of the loop. *)
Lemma urlopen_step (req : Request) (retries : Retry.t) (log : list Request) :
  urlopen lib srv req retries log
  = match put_request lib req with
    | Raise e => (Raise e, log)
    | Return _ =>
        let log' := (log ++ [req])%list in
        let response := srv log' in
        if Retry.is_retry retries (method req) (status_code response)
             (py_bool (headers_get response "Retry-After"))
        then match Retry.increment retries with
             | Raise e =>
                 if Retry.raise_on_status retries
                 then (Raise e, log')
                 else (Return response, log')
             | Return new_retry =>
                 match Retry.sleep lib new_retry response with
                 | Raise e => (Raise e, log')
                 | Return _ => urlopen lib srv req new_retry log'
                 end
             end
        else (Return response, log')
    end.
Proof.
  funelim (urlopen lib srv req retries log); cbn zeta;
    repeat match goal with
      | H : _ = urlopen _ _ _ _ _ |- _ => clear H
      | H : sigmaI _ _ _ = _ |- _ => clear H
      | H : put_request _ _ = _ |- _ => rewrite H; clear H
      | H : Retry.is_retry _ _ _ _ = _ |- _ => rewrite H; clear H
      | H : Retry.increment _ = _ |- _ => rewrite H; clear H
      | H : Retry.sleep _ _ _ = _ |- _ => rewrite H; clear H
      end;
    reflexivity.
Qed.

Variable req : Request.

Lemma sleep_for_retry_no_header (response : Response) :
  headers response !! "retry-after" = None ->
  Retry.sleep_for_retry lib response = Return false.
Proof.
  intros H. unfold Retry.sleep_for_retry, Retry.get_retry_after.
  change (Str.lower "Retry-After") with "retry-after". by rewrite H.
Qed.

Lemma sleep_Return (retries : Retry.t) (response : Response) :
  ~ raises (Retry.sleep_for_retry lib response) ->
  Retry.sleep lib retries response = Return tt.
Proof.
  intros H. unfold Retry.sleep.
  destruct (Retry.respect_retry_after_header retries); [|done].
  by destruct (Retry.sleep_for_retry lib response); [|destruct H].
Qed.

(** A request that cannot be encoded is not sent. *)
Lemma urlopen_unsent (retries : Retry.t) (log : list Request) (e : exn) :
  put_request lib req = Raise e ->
  urlopen lib srv req retries log = (Raise e, log).
Proof. intros H. by rewrite urlopen_step, H. Qed.

Lemma urlopen_stop (retries : Retry.t) (log : list Request) :
  put_request lib req = Return tt ->
  Retry.is_retry retries (method req) (status_code (srv (log ++ [req])%list))
    (py_bool (headers_get (srv (log ++ [req])%list) "Retry-After")) = false ->
  urlopen lib srv req retries log = (Return (srv (log ++ [req])%list), (log ++ [req])%list).
Proof. intros Hput Hstop. rewrite urlopen_step, Hput. cbn zeta. by rewrite Hstop. Qed.

Lemma urlopen_again (retries new_retry : Retry.t) (log : list Request) :
  put_request lib req = Return tt ->
  Retry.is_retry retries (method req) (status_code (srv (log ++ [req])%list))
    (py_bool (headers_get (srv (log ++ [req])%list) "Retry-After")) = true ->
  Retry.increment retries = Return new_retry ->
  ~ raises (Retry.sleep_for_retry lib (srv (log ++ [req])%list)) ->
  urlopen lib srv req retries log = urlopen lib srv req new_retry (log ++ [req])%list.
Proof.
  intros Hput Hretry Hinc Hwait.
  rewrite (urlopen_step req retries), Hput. cbn zeta.
  by rewrite Hretry, Hinc, (sleep_Return new_retry _ Hwait).
Qed.

Lemma urlopen_exhausted (retries : Retry.t) (e : exn) (log : list Request) :
  put_request lib req = Return tt ->
  Retry.is_retry retries (method req) (status_code (srv (log ++ [req])%list))
    (py_bool (headers_get (srv (log ++ [req])%list) "Retry-After")) = true ->
  Retry.increment retries = Raise e ->
  urlopen lib srv req retries log
  = if Retry.raise_on_status retries
    then (Raise e, (log ++ [req])%list)
    else (Return (srv (log ++ [req])%list), (log ++ [req])%list).
Proof.
  intros Hput Hretry Hinc. rewrite urlopen_step, Hput. cbn zeta.
  by rewrite Hretry, Hinc.
Qed.

(** A wait that cannot be made ends the loop with its error. *)
Lemma urlopen_wait_fails (retries new_retry : Retry.t) (e : exn) (log : list Request) :
  put_request lib req = Return tt ->
  Retry.is_retry retries (method req) (status_code (srv (log ++ [req])%list))
    (py_bool (headers_get (srv (log ++ [req])%list) "Retry-After")) = true ->
  Retry.increment retries = Return new_retry ->
  Retry.sleep lib new_retry (srv (log ++ [req])%list) = Raise e ->
  urlopen lib srv req retries log = (Raise e, (log ++ [req])%list).
Proof.
  intros Hput Hretry Hinc Hwait. rewrite urlopen_step, Hput. cbn zeta.
  by rewrite Hretry, Hinc, Hwait.
Qed.

Lemma replicate_snoc (log : list Request) (n : nat) :
  ((log ++ [req]) ++ replicate n req = log ++ replicate (S n) req)%list.
Proof. by rewrite <- app_assoc. Qed.

Lemma mem_string_In (x : string) (l : list string) :
  Retry.mem_string x l = true <-> In x l.
Proof.
  unfold Retry.mem_string. rewrite existsb_exists. split.
  - intros (y & Hy & Heq). apply String.eqb_eq in Heq. by subst.
  - intros Hin. exists x. split; [done | apply String.eqb_refl].
Qed.

Lemma is_retry_other (retries : Retry.t) (m : string) (status : Z) (h : bool) :
  Retry.mem_Z status (Retry.status_forcelist retries) = false ->
  Retry.mem_Z status Retry.RETRY_AFTER_STATUS_CODES = false ->
  Retry.is_retry retries m status h = false.
Proof.
  intros Hf Ha. unfold Retry.is_retry. rewrite Hf, Ha.
  destruct (Retry._is_method_retryable retries m); cbn; [|done].
  by rewrite !andb_false_r.
Qed.

Lemma is_retry_after (retries : Retry.t) (m : string) (status : Z) :
  Retry._is_method_retryable retries m = true ->
  Retry.total retries <> 0 ->
  Retry.respect_retry_after_header retries = true ->
  In status [413; 503] ->
  Retry.is_retry retries m status true = true.
Proof.
  intros Hm Ht Hr Hin. unfold Retry.is_retry. rewrite Hm, Hr; cbn [negb].
  destruct (_ && _); [done|].
  destruct (Retry.total retries =? 0) eqn:E; [lia|].
  by destruct Hin as [<-|[<-|[]]].
Qed.

Lemma is_retry_spent (retries : Retry.t) (m : string) (status : Z) (h : bool) :
  Retry.total retries = 0 ->
  Retry.mem_Z status (Retry.status_forcelist retries) = false ->
  Retry.is_retry retries m status h = false.
Proof.
  intros Ht Hf. unfold Retry.is_retry. rewrite Hf, Ht.
  destruct (Retry._is_method_retryable retries m); cbn; [|done].
  by rewrite andb_false_r.
Qed.

Lemma increment_ok (retries : Retry.t) :
  1 <= Retry.total retries ->
  exists new_retry,
    Retry.increment retries = Return new_retry
    /\ Retry.total new_retry = Retry.total retries - 1
    /\ Retry.status_forcelist new_retry = Retry.status_forcelist retries
    /\ Retry.allowed_methods new_retry = Retry.allowed_methods retries
    /\ Retry.respect_retry_after_header new_retry = Retry.respect_retry_after_header retries
    /\ Retry.raise_on_status new_retry = Retry.raise_on_status retries.
Proof.
  intros Hge. unfold Retry.increment, Retry.is_exhausted; cbn.
  destruct (Retry.total retries - 1 =? 0) eqn:E0; [by eexists|].
  destruct (Retry.total retries - 1 <? 0) eqn:E1; [lia|]. by eexists.
Qed.

Lemma increment_spent (retries : Retry.t) :
  Retry.total retries <= 0 -> Retry.increment retries = Raise MaxRetryError.
Proof.
  intros Hle. unfold Retry.increment, Retry.is_exhausted; cbn.
  destruct (Retry.total retries - 1 =? 0) eqn:E0; [lia|].
  destruct (Retry.total retries - 1 <? 0) eqn:E1; [done|lia].
Qed.

(** The loop sends the request at most [total + 1] times, and nothing
    else. *)
Lemma urlopen_bounded (retries : Retry.t) (log : list Request) :
  exists n : nat,
    Z.of_nat n <= Z.max (Retry.total retries) 0 + 1
    /\ (urlopen lib srv req retries log).2 = (log ++ replicate n req)%list.
Proof.
  remember (Z.to_nat (Retry.total retries)) as k eqn:Hk.
  revert retries log Hk.
  induction k as [|k IH]; intros retries log Hk; rewrite urlopen_step.
  - destruct (put_request lib req); [|exists 0%nat; cbn; rewrite app_nil_r; split; [lia|done]].
    cbn zeta. destruct (Retry.is_retry _ _ _ _); [|exists 1%nat; split; [lia|done]].
    rewrite increment_spent by lia.
    exists 1%nat. split; [lia|]. by destruct (Retry.raise_on_status retries).
  - destruct (put_request lib req); [|exists 0%nat; cbn; rewrite app_nil_r; split; [lia|done]].
    cbn zeta. destruct (Retry.is_retry _ _ _ _); [|exists 1%nat; split; [lia|done]].
    destruct (increment_ok retries) as (new_retry & -> & Htot & _); [lia|].
    destruct (Retry.sleep lib new_retry _); [|exists 1%nat; split; [lia|done]].
    destruct (IH new_retry (log ++ [req])%list) as (n & Hn & Hlog); [lia|].
    exists (S n). split; [lia|]. by rewrite Hlog, replicate_snoc.
Qed.

(** What the loop returns is the answer to the last request. *)
Lemma urlopen_answer (retries : Retry.t) (log log' : list Request) (r : Response) :
  urlopen lib srv req retries log = (Return r, log') -> r = srv log'.
Proof.
  remember (Z.to_nat (Retry.total retries)) as k eqn:Hk.
  revert retries log Hk.
  induction k as [|k IH]; intros retries log Hk; rewrite urlopen_step.
  - destruct (put_request lib req); [|done].
    cbn zeta. destruct (Retry.is_retry _ _ _ _); [|by intros [= <- <-]].
    rewrite increment_spent by lia.
    destruct (Retry.raise_on_status retries); [done | by intros [= <- <-]].
  - destruct (put_request lib req); [|done].
    cbn zeta. destruct (Retry.is_retry _ _ _ _); [|by intros [= <- <-]].
    destruct (increment_ok retries) as (new_retry & -> & Htot & _); [lia|].
    destruct (Retry.sleep lib new_retry _); [|done].
    apply IH. lia.
Qed.

(** Answered 429 every time, with waits that can be made, a retry whose
    force list has 429 sends the request [total + 1] times and gives up. *)
Lemma urlopen_rate_limited (n : nat) :
  forall (retries : Retry.t) (log : list Request),
    Retry.total retries = Z.of_nat n ->
    put_request lib req = Return tt ->
    Retry._is_method_retryable retries (method req) = true ->
    Retry.mem_Z 429 (Retry.status_forcelist retries) = true ->
    Retry.raise_on_status retries = true ->
    (forall l, status_code (srv l) = 429) ->
    (forall l, ~ raises (Retry.sleep_for_retry lib (srv l))) ->
    urlopen lib srv req retries log
    = (Raise MaxRetryError, (log ++ replicate (S n) req)%list).
Proof.
  induction n as [|n IH]; intros retries log Ht Hput Hm Hf Hr H429 Hwait.
  - rewrite (urlopen_exhausted retries MaxRetryError log Hput).
    + by rewrite Hr.
    + apply is_retry_forced; [done | by rewrite H429].
    + apply increment_spent. lia.
  - destruct (increment_ok retries) as (new_retry & Hinc & Htot & Hfl & Ham & _ & Hros); [lia|].
    rewrite (urlopen_again retries new_retry log Hput).
    + rewrite IH; try done.
      * by rewrite replicate_snoc.
      * lia.
      * revert Hm. unfold Retry._is_method_retryable. by rewrite Ham.
      * by rewrite Hfl.
      * by rewrite Hros.
    + apply is_retry_forced; [done | by rewrite H429].
    + done.
    + apply Hwait.
Qed.

(** After [k] answers of 429 and then an answer that is not retried, the
    loop returns that answer, having sent the request [k + 1] times. *)
Lemma urlopen_recovers (k : nat) :
  forall (retries : Retry.t) (log : list Request),
    Z.of_nat k <= Retry.total retries ->
    put_request lib req = Return tt ->
    Retry._is_method_retryable retries (method req) = true ->
    Retry.status_forcelist retries = [429] ->
    (forall j : nat, (1 <= j <= k)%nat ->
       status_code (srv (log ++ replicate j req)%list) = 429
       /\ ~ raises (Retry.sleep_for_retry lib (srv (log ++ replicate j req)%list))) ->
    Retry.mem_Z (status_code (srv (log ++ replicate (S k) req)%list)) [413; 429; 503] = false ->
    urlopen lib srv req retries log
    = (Return (srv (log ++ replicate (S k) req)%list), (log ++ replicate (S k) req)%list).
Proof.
  induction k as [|k IH]; intros retries log Hk Hput Hm Hf H429 Hlast.
  - apply urlopen_stop; [done|]. apply is_retry_other; [|done].
    rewrite Hf. revert Hlast. cbn. by destruct (_ =? 429); rewrite ?orb_true_r.
  - destruct (increment_ok retries) as (new_retry & Hinc & Htot & Hfl & Ham & _ & _); [lia|].
    destruct (H429 1%nat) as [H1 Hw1]; [lia|].
    rewrite (urlopen_again retries new_retry log Hput).
    + rewrite IH; try done.
      * by rewrite !replicate_snoc.
      * lia.
      * revert Hm. unfold Retry._is_method_retryable. by rewrite Ham.
      * by rewrite Hfl.
      * intros j Hj. rewrite replicate_snoc. apply H429. lia.
      * by rewrite replicate_snoc.
    + apply is_retry_forced; [done|]. cbn [replicate] in H1. by rewrite H1, Hf.
    + done.
    + exact Hw1.
Qed.

(** On answers of 413 or 503 that carry [Retry-After], with waits that can
    be made, the loop retries while [total] is not spent, then returns the
    last answer. *)
Lemma urlopen_retry_after (n : nat) :
  forall (retries : Retry.t) (log : list Request),
    Retry.total retries = Z.of_nat n ->
    put_request lib req = Return tt ->
    Retry._is_method_retryable retries (method req) = true ->
    Retry.status_forcelist retries = [429] ->
    Retry.respect_retry_after_header retries = true ->
    (forall l, In (status_code (srv l)) [413; 503]
               /\ py_bool (headers_get (srv l) "Retry-After") = true
               /\ ~ raises (Retry.sleep_for_retry lib (srv l))) ->
    urlopen lib srv req retries log
    = (Return (srv (log ++ replicate (S n) req)%list), (log ++ replicate (S n) req)%list).
Proof.
  induction n as [|n IH]; intros retries log Ht Hput Hm Hf Hr Hsrv.
  - apply urlopen_stop; [done|]. apply is_retry_spent; [done|].
    rewrite Hf. destruct (Hsrv (log ++ [req])%list) as [[<-|[<-|[]]] _]; done.
  - destruct (increment_ok retries) as (new_retry & Hinc & Htot & Hfl & Ham & Hresp & _); [lia|].
    destruct (Hsrv (log ++ [req])%list) as (Hst & Hra & Hw).
    rewrite (urlopen_again retries new_retry log Hput).
    + rewrite IH; try done.
      * by rewrite !replicate_snoc.
      * lia.
      * revert Hm. unfold Retry._is_method_retryable. by rewrite Ham.
      * by rewrite Hfl.
      * by rewrite Hresp.
    + rewrite Hra. apply is_retry_after; [done | lia | done | done].
    + done.
    + done.
Qed.

End RetryLoop.

(** ** The session *)

Section SessionFacts.

Variable lib : Library.
Variable srv : Server.

Lemma mounted_adapters (adapter : HTTPAdapter) :
  mount "https://" adapter Session
  = [("https://", adapter); ("http://", default_adapter)].
Proof. reflexivity. Qed.

Lemma get_adapter_https (adapter : HTTPAdapter) (u : string) :
  Str.startswith "https://" (Str.lower u) = true ->
  get_adapter (mount "https://" adapter Session) u = Return adapter.
Proof.
  intros H. rewrite mounted_adapters. unfold get_adapter.
  change (Str.lower "https://") with "https://". by rewrite H.
Qed.

Lemma http_is_not_https (s : string) :
  Str.startswith "http://" s = true -> Str.startswith "https://" s = false.
Proof. intros [t ->]%startswith_split. reflexivity. Qed.

Lemma get_adapter_http (adapter : HTTPAdapter) (u : string) :
  Str.startswith "http://" (Str.lower u) = true ->
  get_adapter (mount "https://" adapter Session) u = Return default_adapter.
Proof.
  intros H. rewrite mounted_adapters. unfold get_adapter.
  change (Str.lower "https://") with "https://".
  change (Str.lower "http://") with "http://".
  by rewrite (http_is_not_https _ H), H.
Qed.


Lemma send_log (adapter : HTTPAdapter) (req : Request) (log : list Request) :
  (send lib adapter req srv log).2 = (urlopen lib srv req (max_retries adapter) log).2.
Proof. unfold send. by destruct (urlopen _ _ _ _ _) as [[r|[]] l]. Qed.

Lemma send_returns (adapter : HTTPAdapter) (req : Request) (log log' : list Request)
    (r : Response) :
  urlopen lib srv req (max_retries adapter) log = (Return r, log') ->
  send lib adapter req srv log = (Return r, log').
Proof. intros H. unfold send. by rewrite H. Qed.

Lemma send_answer (adapter : HTTPAdapter) (req : Request) (log log' : list Request)
    (r : Response) :
  send lib adapter req srv log = (Return r, log') -> r = srv log'.
Proof.
  unfold send. destruct (urlopen _ _ _ _ _) as [[r'|e] l] eqn:E.
  - intros [= <- <-]. by apply (urlopen_answer lib srv req _ _ _ _ E).
  - by destruct e.
Qed.

Lemma send_gives_up (adapter : HTTPAdapter) (req : Request) (log log' : list Request) :
  urlopen lib srv req (max_retries adapter) log = (Raise MaxRetryError, log') ->
  send lib adapter req srv log = (Raise RetryError, log').
Proof. intros H. unfold send. by rewrite H. Qed.

(** A status outside [REDIRECT_STATI] is no redirect, and neither is an
    answer without [Location]. *)
Lemma is_redirect_status (r : Response) :
  ~ In (status_code r) REDIRECT_STATI -> is_redirect r = false.
Proof.
  intros Hnot. unfold is_redirect. destruct (headers r !! "location"); [|done].
  unfold REDIRECT_STATI in *. cbn in *.
  destruct (status_code r =? 301) eqn:E1, (status_code r =? 302) eqn:E2,
    (status_code r =? 303) eqn:E3, (status_code r =? 307) eqn:E4,
    (status_code r =? 308) eqn:E5; lia || done.
Qed.

Lemma is_redirect_location (r : Response) :
  headers r !! "location" = None -> is_redirect r = false.
Proof. intros H. unfold is_redirect. by rewrite H. Qed.

(** An answer that is no redirect is the answer of the session. *)
Lemma resolve_redirects_none (adapters : adapters_t) (remaining : nat) (req : Request)
    (resp : Response) (log : list Request) :
  is_redirect resp = false ->
  resolve_redirects lib adapters srv remaining req resp log = (Return resp, log).
Proof.
  intros H. destruct remaining; cbn; unfold get_redirect_target; by rewrite H.
Qed.

(** A redirect within the limit: the rebuilt request is sent. *)
Lemma resolve_redirects_follow (adapters : adapters_t) (remaining : nat)
    (req next : Request) (resp : Response) (target : string) (log : list Request) :
  get_redirect_target lib resp = Return (Some target) ->
  rebuild_request lib req resp target = Return next ->
  resolve_redirects lib adapters srv (S remaining) req resp log
  = match send_one lib adapters next srv log with
    | (Raise e, log') => (Raise e, log')
    | (Return resp', log') => resolve_redirects lib adapters srv remaining next resp' log'
    end.
Proof. intros Htarget Hnext. cbn [resolve_redirects]. by rewrite Htarget, Hnext. Qed.

Lemma get_redirect_target_location (resp : Response) (location target : string) :
  In (status_code resp) REDIRECT_STATI ->
  headers resp !! "location" = Some location ->
  redirect_location lib location = Return target ->
  target <> "" ->
  get_redirect_target lib resp = Return (Some target).
Proof.
  intros Hst Hloc Hdec Hne.
  assert (Hred : is_redirect resp = true).
  { unfold is_redirect. rewrite Hloc. unfold REDIRECT_STATI in *. cbn in *.
    destruct (_ =? 301) eqn:E1, (_ =? 302) eqn:E2, (_ =? 303) eqn:E3,
      (_ =? 307) eqn:E4, (_ =? 308) eqn:E5; lia || done. }
  unfold get_redirect_target. rewrite Hred, Hloc, Hdec. cbn.
  apply String.eqb_neq in Hne. by rewrite Hne.
Qed.

Lemma Session_send_answer (adapters : adapters_t) (adapter : HTTPAdapter)
    (p : Request) (r : Response) (log log' : list Request) :
  get_adapter adapters (url p) = Return adapter ->
  urlopen lib srv p (max_retries adapter) log = (Return r, log') ->
  is_redirect r = false ->
  Session_send lib adapters p srv log = (Return r, log').
Proof.
  intros Hadapter Hloop Hfinal. unfold Session_send, send_one.
  rewrite Hadapter, (send_returns adapter p log log' r Hloop).
  by apply resolve_redirects_none.
Qed.

Lemma Session_send_raises (adapters : adapters_t) (adapter : HTTPAdapter)
    (p : Request) (e : exn) (log log' : list Request) :
  get_adapter adapters (url p) = Return adapter ->
  urlopen lib srv p (max_retries adapter) log = (Raise e, log') ->
  e <> MaxRetryError ->
  Session_send lib adapters p srv log = (Raise e, log').
Proof.
  intros Hadapter Hloop Hne. unfold Session_send, send_one, send.
  rewrite Hadapter, Hloop. by destruct e.
Qed.

Lemma Session_send_gives_up (adapters : adapters_t) (adapter : HTTPAdapter)
    (p : Request) (log log' : list Request) :
  get_adapter adapters (url p) = Return adapter ->
  urlopen lib srv p (max_retries adapter) log = (Raise MaxRetryError, log') ->
  Session_send lib adapters p srv log = (Raise RetryError, log').
Proof.
  intros Hadapter Hloop. unfold Session_send, send_one.
  by rewrite Hadapter, (send_gives_up adapter p log log' Hloop).
Qed.

Variable self : FrameioClient.
Variables meth endpoint : string.
Variable body : json.
Variable log : list Request.

(** The call prepares the request, sends it through the session and
    interprets the answer. *)
Lemma api_call_prepared (p : Request) :
  prepare_request lib (request_of self meth endpoint body) = Return p ->
  _api_call lib self meth endpoint body srv log
  = ((Session_send lib (mount "https://" (mkHTTPAdapter (retry_strategy self)) Session)
        p srv log).1 ≫= interpret endpoint,
     (Session_send lib (mount "https://" (mkHTTPAdapter (retry_strategy self)) Session)
        p srv log).2).
Proof.
  intros Hprep. unfold _api_call, dispatch, request.
  change (mkRequest meth (host self +:+ "/v2" +:+ endpoint) _ body)
    with (request_of self meth endpoint body).
  rewrite Hprep. by destruct (Session_send _ _ _ _ _).
Qed.

Lemma api_call_unsent (e : exn) :
  prepare_request lib (request_of self meth endpoint body) = Raise e ->
  _api_call lib self meth endpoint body srv log = (Raise e, log).
Proof.
  intros Hprep. unfold _api_call, dispatch, request.
  change (mkRequest meth (host self +:+ "/v2" +:+ endpoint) _ body)
    with (request_of self meth endpoint body).
  by rewrite Hprep.
Qed.

(** A call on an [https://] URL whose loop ends with an answer that is no
    redirect: the answer is interpreted. *)
Lemma api_call_answer (p : Request) (r : Response) (log' : list Request) :
  prepare_request lib (request_of self meth endpoint body) = Return p ->
  Str.startswith "https://" (Str.lower (url p)) = true ->
  urlopen lib srv p (retry_strategy self) log = (Return r, log') ->
  is_redirect r = false ->
  _api_call lib self meth endpoint body srv log = (interpret endpoint r, log').
Proof.
  intros Hprep Hurl Hloop Hfinal. rewrite (api_call_prepared p Hprep).
  by rewrite (Session_send_answer _ (mkHTTPAdapter (retry_strategy self)) p r log log'
                (get_adapter_https _ _ Hurl) Hloop Hfinal).
Qed.

(** The same, for a first answer that is not one to retry on. *)
Lemma api_call_once (p : Request) :
  prepare_request lib (request_of self meth endpoint body) = Return p ->
  put_request lib p = Return tt ->
  Str.startswith "https://" (Str.lower (url p)) = true ->
  Retry.is_retry (retry_strategy self) (method p)
    (status_code (srv (log ++ [p])%list))
    (py_bool (headers_get (srv (log ++ [p])%list) "Retry-After")) = false ->
  is_redirect (srv (log ++ [p])%list) = false ->
  _api_call lib self meth endpoint body srv log
  = (interpret endpoint (srv (log ++ [p])%list), (log ++ [p])%list).
Proof.
  intros Hprep Hput Hurl Hstop Hfinal.
  apply (api_call_answer p _ _ Hprep Hurl); [|done].
  by apply urlopen_stop.
Qed.

Lemma api_call_gives_up (p : Request) (log' : list Request) :
  prepare_request lib (request_of self meth endpoint body) = Return p ->
  Str.startswith "https://" (Str.lower (url p)) = true ->
  urlopen lib srv p (retry_strategy self) log = (Raise MaxRetryError, log') ->
  _api_call lib self meth endpoint body srv log = (Raise RetryError, log').
Proof.
  intros Hprep Hurl Hloop. rewrite (api_call_prepared p Hprep).
  by rewrite (Session_send_gives_up _ (mkHTTPAdapter (retry_strategy self)) p log log'
                (get_adapter_https _ _ Hurl) Hloop).
Qed.

End SessionFacts.

Section RetryStrategy.

(** The methods of the client's retry strategy. *)
Lemma retryable_listed (m : string) (total : Z) :
  In m ["GET"; "POST"; "OPTIONS"] ->
  Retry._is_method_retryable
    (Retry.mk total 1 [429] ["POST"; "OPTIONS"; "GET"] true true) m = true.
Proof. intros [<-|[<-|[<-|[]]]]; reflexivity. Qed.


Lemma not_in_retry_after (status : Z) :
  ~ In status [413; 429; 503] ->
  Retry.mem_Z status [413; 429; 503] = false /\ Retry.mem_Z status [429] = false.
Proof.
  intros Hnot. cbn in *.
  destruct (status =? 413) eqn:E1, (status =? 429) eqn:E2, (status =? 503) eqn:E3;
    lia || done.
Qed.

Lemma interpret_error_raises (endpoint : string) (r : Response) :
  400 <= status_code r < 600 ->
  status_code r <> 422 ->
  interpret endpoint r = Raise (HTTPError r).
Proof.
  intros Hst Hne. unfold interpret, ok, raise_for_status.
  destruct (400 <=? status_code r) eqn:E1; [|lia].
  destruct (status_code r <? 600) eqn:E2; [|lia]. cbn.
  destruct (status_code r =? 422) eqn:E3; [lia | done].
Qed.

End RetryStrategy.

Section RateLimited.

Variable lib : Library.
Variable srv : Server.
Variables tok base version meth endpoint : string.
Variable body : json.
Variable p : Request.
Variable log : list Request.

Hypothesis prepared :
  prepare_request lib (request_of (FrameioClient_init tok base version) meth endpoint body)
  = Return p.
Hypothesis encoded : put_request lib p = Return tt.
Hypothesis secure : Str.startswith "https://" (Str.lower (url p)) = true.
Hypothesis rate_limited : forall l, status_code (srv l) = 429.
Hypothesis waits : forall l, ~ raises (Retry.sleep_for_retry lib (srv l)).

(** C1 (as the code has it). [Retry(total=3)] allows three retries.  Take
    a call whose request the library prepares and encodes, for an
    [https://] URL and with the method GET, POST or OPTIONS, and a server
    that answers every attempt with 429, with no [Retry-After] header or
    with one whose wait can be made.  The call sends the prepared request
    four times, one attempt and three retries, then raises [RetryError];
    there is no fifth attempt. *)
Theorem api_call_rate_limited :
  In (method p) ["GET"; "POST"; "OPTIONS"] ->
  _api_call lib (FrameioClient_init tok base version) meth endpoint body srv log
  = (Raise RetryError, (log ++ replicate 4 p)%list).
Proof.
  intros Hin. apply (api_call_gives_up lib srv _ _ _ _ _ p _ prepared secure).
  apply (urlopen_rate_limited lib srv p 3); try done.
  exact (retryable_listed (method p) 3 Hin).
Qed.

End RateLimited.

Lemma api_call_rate_limited_witness :
  _api_call wire sample_client "get" "/me" (JObj []) always_429 []
  = (Raise RetryError,
     replicate 4
       (mkRequest "GET" "https://api.frame.io/v2/me"
          [("Authorization", "Bearer t0k3n"); ("x-frameio-client", "python/0.7.4")]
          (JObj []))).
Proof.
  apply (api_call_rate_limited wire always_429 "t0k3n" default_host "0.7.4" "get" "/me"
           (JObj []) (wire_request sample_client "get" "/me" (JObj [])) []
           eq_refl eq_refl eq_refl (fun _ => eq_refl) (fun _ H => H)).
  left; reflexivity.
Defined.

(** A method outside the retry's list is sent once, and the 429 comes back as
    the [HTTPError] of [raise_for_status]. *)
Example put_is_not_retried :
  _api_call wire sample_client "put" "/assets/a1" (JObj []) always_429 []
  = (Raise (HTTPError (mkResponse 429 ∅ "" None)),
     [mkRequest "PUT" "https://api.frame.io/v2/assets/a1"
        [("Authorization", "Bearer t0k3n"); ("x-frameio-client", "python/0.7.4")]
        (JObj [])]).
Proof. reflexivity. Qed.

(** On an [http://] host the session's default adapter is used, which does
    not retry. *)
Example http_host_is_not_retried :
  attempts wire (FrameioClient_init "t0k3n" "http://localhost:8080" "0.7.4")
    "get" "/me" (JObj []) always_429
  = 1%nat.
Proof. reflexivity. Qed.

(** A [Retry-After] that is neither a number of seconds nor a date stops
    the call after the first answer, with [InvalidHeader]. *)
Example retry_after_soon :
  _api_call wire sample_client "get" "/me" (JObj []) (answers come_back_soon) []
  = (Raise InvalidHeader, [wire_request sample_client "get" "/me" (JObj [])]).
Proof. reflexivity. Qed.

(** A redirect is followed: the next request goes to its [Location], and
    the answer to that one is interpreted. *)
Example redirect_is_followed :
  _api_call wire sample_client "get" "/me" (JObj [])
    (moved_then me_response) []
  = (Return (Plain (JObj [])),
     [wire_request sample_client "get" "/me" (JObj []);
      mkRequest "GET" "https://api.frame.io/v2/accounts/me"
        [("Authorization", "Bearer t0k3n"); ("x-frameio-client", "python/0.7.4")]
        (JObj [])]).
Proof. reflexivity. Qed.

(** A server that redirects every request stops the call with
    [TooManyRedirects], after the first request and thirty redirects. *)
Example redirect_loop_is_cut :
  (_api_call wire sample_client "get" "/me" (JObj [])
     (answers moved)
     []).1
  = Raise TooManyRedirects
  /\ attempts wire sample_client "get" "/me" (JObj [])
       (answers moved)
     = 31%nat.
Proof. split; vm_compute; reflexivity. Qed.

(** C1 (as the spec states it) does not hold: [get_me] against a server
    that always answers 429 makes four attempts, not three. *)
Lemma three_attempts_counterexample :
  (forall log, status_code (always_429 log) = 429)
  /\ (get_me wire sample_client always_429 []).1 = Raise RetryError
  /\ attempts wire sample_client "get" "/me" (JObj []) always_429 = 4%nat
  /\ attempts wire sample_client "get" "/me" (JObj []) always_429 <> 3%nat.
Proof. repeat split; vm_compute; congruence. Qed.

(** ** The downloader *)

Section Download.

Variable self : FrameioDownloader.
Variable w : World.
Variables name original : string.
Variable r : Response.

Hypothesis has_name : asset self !! "name" = Some name.
Hypothesis has_original : asset self !! "original" = Some original.
Hypothesis fetched : fetch w original = Return r.

(** Whatever the status of the response, its body is written. *)
Lemma download_writes :
  can_open w (os_path_join (download_folder self) name) = true ->
  write w (os_path_join (download_folder self) name) (content r) = Written ->
  download self w
  = (Return tt,
     with_files w
       (<[resolve w (os_path_join (download_folder self) name) := content r]> (files w))).
Proof.
  intros Hopen Hwrite. unfold download, asset_getitem, requests_get, open_wb_write.
  rewrite has_name, has_original, fetched.
  by rewrite Hopen, Hwrite.
Qed.

Lemma download_not_opened :
  can_open w (os_path_join (download_folder self) name) = false ->
  download self w = (Raise (IOError (os_path_join (download_folder self) name)), w).
Proof.
  intros Hopen. unfold download, asset_getitem, requests_get, open_wb_write.
  rewrite has_name, has_original, fetched.
  by rewrite Hopen.
Qed.

(** A write that fails after the file was opened raises, and leaves the
    file with what was stored, not with what was there before. *)
Lemma download_write_fails (stored : string) :
  can_open w (os_path_join (download_folder self) name) = true ->
  write w (os_path_join (download_folder self) name) (content r) = Failed stored ->
  download self w
  = (Raise (IOError (os_path_join (download_folder self) name)),
     with_files w
       (<[resolve w (os_path_join (download_folder self) name) := stored]> (files w))).
Proof.
  intros Hopen Hwrite. unfold download, asset_getitem, requests_get, open_wb_write.
  rewrite has_name, has_original, fetched.
  by rewrite Hopen, Hwrite.
Qed.

Lemma os_path_join_relative (folder : string) :
  Str.startswith "/" name = false ->
  folder <> "" ->
  Str.endswith_char "/" folder = false ->
  os_path_join folder name = folder +:+ "/" +:+ name.
Proof.
  intros Hrel Hne Hslash. unfold os_path_join.
  rewrite Hrel, Hslash. by destruct folder.
Qed.

Lemma os_path_join_absolute (folder : string) :
  Str.startswith "/" name = true -> os_path_join folder name = name.
Proof. intros Habs. unfold os_path_join. by rewrite Habs. Qed.

(** C9 (as the code has it). When the descriptor has [name] and
    [original], the GET of [original] succeeds, and the path
    [os.path.join(D, name)] can be opened and takes the whole write, the
    download returns normally and the file that this path names holds the
    bytes of the response body, whatever it held before; every path that
    names another file reads as before.  The path is [D/name] for a
    relative [name] and a non-empty [D] without a slash at its end, and
    [name] itself, without [D], for a [name] that starts with a slash. *)
Theorem download_success :
  200 <= status_code r < 300 ->
  can_open w (os_path_join (download_folder self) name) = true ->
  write w (os_path_join (download_folder self) name) (content r) = Written ->
  (download self w).1 = Return tt
  /\ read (download self w).2 (os_path_join (download_folder self) name) = Some (content r)
  /\ (forall path,
        resolve w path <> resolve w (os_path_join (download_folder self) name) ->
        read (download self w).2 path = read w path)
  /\ (Str.startswith "/" name = false ->
      download_folder self <> "" ->
      Str.endswith_char "/" (download_folder self) = false ->
      os_path_join (download_folder self) name = download_folder self +:+ "/" +:+ name)
  /\ (Str.startswith "/" name = true ->
      os_path_join (download_folder self) name = name).
Proof.
  intros _ Hopen Hwrite. rewrite (download_writes Hopen Hwrite).
  unfold read; cbn [fst snd files resolve with_files].
  split; [done|]. split; [apply lookup_insert_eq|]. split; [|split].
  - intros path Hne. by apply lookup_insert_ne.
  - apply os_path_join_relative.
  - apply os_path_join_absolute.
Qed.

(** C2 (as the code has it). The downloader does not look at the status:
    when the GET of [original] answers with a status outside 200..299, and
    the path [os.path.join(D, name)] can be opened and takes the whole
    write, the download still returns normally, raising nothing, and the
    file that this path names holds the body of that response. *)
Theorem download_ignores_status :
  ~ (200 <= status_code r < 300) ->
  can_open w (os_path_join (download_folder self) name) = true ->
  write w (os_path_join (download_folder self) name) (content r) = Written ->
  (download self w).1 = Return tt
  /\ read (download self w).2 (os_path_join (download_folder self) name) = Some (content r).
Proof.
  intros _ Hopen Hwrite. rewrite (download_writes Hopen Hwrite).
  unfold read; cbn [fst snd files resolve with_files].
  split; [done | apply lookup_insert_eq].
Qed.

End Download.

Lemma download_success_witness :
  (download clip_downloader
     (storage_on (<[encode "D/clip.mp4" := "old"]> ∅) 200 "bytes")).1 = Return tt
  /\ read
       (download clip_downloader
          (storage_on (<[encode "D/clip.mp4" := "old"]> ∅) 200 "bytes")).2 "D/clip.mp4"
     = Some "bytes".
Proof.
  destruct (download_success clip_downloader
              (storage_on (<[encode "D/clip.mp4" := "old"]> ∅) 200 "bytes")
              "clip.mp4" "https://storage.example/clip"
              (mkResponse 200 ∅ "bytes" None)
              eq_refl eq_refl eq_refl ltac:(cbn; lia) eq_refl eq_refl) as (Hret & Hfile & _).
  split; [exact Hret | exact Hfile].
Defined.

(** C9 (as the spec states it) does not hold: with the name [/etc/motd]
    and the folder [D] the body is written at [/etc/motd], and nothing is
    written at [D//etc/motd], nor at [D/etc/motd]. *)
Lemma download_path_counterexample :
  (download
     (mkFrameioDownloader
        (<["name" := "/etc/motd"]> (<["original" := "https://storage.example/clip"]> ∅)) "D")
     (storage 200 "bytes")).1 = Return tt
  /\ read
       (download
          (mkFrameioDownloader
             (<["name" := "/etc/motd"]> (<["original" := "https://storage.example/clip"]> ∅))
             "D")
          (storage 200 "bytes")).2 "/etc/motd" = Some "bytes"
  /\ read
       (download
          (mkFrameioDownloader
             (<["name" := "/etc/motd"]> (<["original" := "https://storage.example/clip"]> ∅))
             "D")
          (storage 200 "bytes")).2 ("D" +:+ "/" +:+ "/etc/motd") = None
  /\ read
       (download
          (mkFrameioDownloader
             (<["name" := "/etc/motd"]> (<["original" := "https://storage.example/clip"]> ∅))
             "D")
          (storage 200 "bytes")).2 "D/etc/motd" = None.
Proof. repeat split; vm_compute; reflexivity. Qed.

(** A path that names the file under another name reads the new bytes
    too. *)
Example download_linked :
  read (download clip_downloader (linked 200 "bytes")).2 "E/clip.mp4" = Some "bytes".
Proof. vm_compute. reflexivity. Qed.

(** On a disk that is full the download of a good response raises, and
    the file is left empty. *)
Example download_disk_full :
  download clip_downloader (full_disk 200 "bytes")
  = (Raise (IOError "D/clip.mp4"),
     with_files (full_disk 200 "bytes") (<[encode "D/clip.mp4" := ""]> ∅)).
Proof. reflexivity. Qed.

Lemma download_ignores_status_witness :
  (download clip_downloader (storage 403 "AccessDenied")).1 = Return tt
  /\ read (download clip_downloader (storage 403 "AccessDenied")).2 "D/clip.mp4"
     = Some "AccessDenied".
Proof.
  apply (download_ignores_status clip_downloader (storage 403 "AccessDenied")
           "clip.mp4" "https://storage.example/clip"
           (mkResponse 403 ∅ "AccessDenied" None)
           eq_refl eq_refl eq_refl ltac:(cbn; lia) eq_refl eq_refl).
Defined.

(** C2 (as the spec states it) does not hold: when the storage service
    answers 403 the download raises nothing, and the file that was not
    there before now holds the error body. *)
Lemma download_error_counterexample :
  read (storage 403 "AccessDenied") "D/clip.mp4" = None
  /\ (download clip_downloader (storage 403 "AccessDenied")).1 = Return tt
  /\ read (download clip_downloader (storage 403 "AccessDenied")).2 "D/clip.mp4"
     = Some "AccessDenied"
  /\ ~ (raises (download clip_downloader (storage 403 "AccessDenied")).1
        /\ read (download clip_downloader (storage 403 "AccessDenied")).2 "D/clip.mp4"
           = None).
Proof.
  repeat split; try (vm_compute; reflexivity).
  intros [Hraise _]. exact Hraise.
Qed.

(** ** The dispatcher, whatever the server does *)

Section DispatcherCases.

Variable lib : Library.
Variable srv : Server.
Variables tok base version meth endpoint : string.
Variable body : json.
Variable p : Request.
Variable log : list Request.

Hypothesis prepared :
  prepare_request lib (request_of (FrameioClient_init tok base version) meth endpoint body)
  = Return p.
Hypothesis encoded : put_request lib p = Return tt.


(** X2. For a request that the library prepares and encodes, for an
    [https://] URL, an answer whose status is none of 413, 429 and 503 and
    that is no redirect ends the call at once, for every method: one
    request, and the answer goes to the interpreter. *)
Theorem api_call_other_status_once :
  Str.startswith "https://" (Str.lower (url p)) = true ->
  ~ In (status_code (srv (log ++ [p])%list)) [413; 429; 503] ->
  is_redirect (srv (log ++ [p])%list) = false ->
  _api_call lib (FrameioClient_init tok base version) meth endpoint body srv log
  = (interpret endpoint (srv (log ++ [p])%list), (log ++ [p])%list).
Proof.
  intros Hurl Hnot Hfinal.
  apply (api_call_once lib srv _ _ _ _ _ p prepared encoded Hurl); [|done].
  destruct (not_in_retry_after _ Hnot) as [Hafter Hforce].
  by apply is_retry_other.
Qed.

(** X3. 413 and 503 are retried too when the answer carries a
    [Retry-After] header: a GET, POST or OPTIONS call, prepared and
    encoded for an [https://] URL, that is always answered so, with waits
    that can be made, sends four requests, and then the last answer is
    raised as an [HTTPError] (not as a [RetryError]). *)
Theorem api_call_retry_after :
  Str.startswith "https://" (Str.lower (url p)) = true ->
  In (method p) ["GET"; "POST"; "OPTIONS"] ->
  (forall l, In (status_code (srv l)) [413; 503]
             /\ py_bool (headers_get (srv l) "Retry-After") = true
             /\ ~ raises (Retry.sleep_for_retry lib (srv l))) ->
  _api_call lib (FrameioClient_init tok base version) meth endpoint body srv log
  = (Raise (HTTPError (srv (log ++ replicate 4 p)%list)), (log ++ replicate 4 p)%list).
Proof.
  intros Hurl Hin Hsrv.
  rewrite (api_call_answer lib srv _ _ _ _ _ p
             (srv (log ++ replicate 4 p)%list) (log ++ replicate 4 p)%list prepared Hurl).
  - f_equal. apply interpret_error_raises;
      destruct (Hsrv (log ++ replicate 4 p)%list) as [[<-|[<-|[]]] _]; lia.
  - apply (urlopen_retry_after lib srv p 3); try done.
    exact (retryable_listed (method p) 3 Hin).
  - apply is_redirect_status.
    destruct (Hsrv (log ++ replicate 4 p)%list) as [[<-|[<-|[]]] _];
      cbn; intros H; repeat destruct H as [H|H]; try discriminate H; done.
Qed.

(** X5. A rate limit that passes is ridden out: when the first [k]
    requests of a GET, POST or OPTIONS call ([k] at most 3), prepared and
    encoded for an [https://] URL, are answered 429 with waits that can be
    made, and the next one with a status that is not retried and is no
    redirect, the call sends [k + 1] requests and the last answer goes to
    the interpreter. *)
Theorem api_call_recovers (k : nat) :
  Str.startswith "https://" (Str.lower (url p)) = true ->
  In (method p) ["GET"; "POST"; "OPTIONS"] ->
  (k <= 3)%nat ->
  (forall j : nat, (1 <= j <= k)%nat ->
     status_code (srv (log ++ replicate j p)%list) = 429
     /\ ~ raises (Retry.sleep_for_retry lib (srv (log ++ replicate j p)%list))) ->
  ~ In (status_code (srv (log ++ replicate (S k) p)%list)) [413; 429; 503] ->
  is_redirect (srv (log ++ replicate (S k) p)%list) = false ->
  _api_call lib (FrameioClient_init tok base version) meth endpoint body srv log
  = (interpret endpoint (srv (log ++ replicate (S k) p)%list),
     (log ++ replicate (S k) p)%list).
Proof.
  intros Hurl Hin Hk H429 Hlast Hfinal.
  apply (api_call_answer lib srv _ _ _ _ _ p _ _ prepared Hurl); [|done].
  apply urlopen_recovers; cbn [retry_strategy FrameioClient_init Retry.total
                                 Retry.status_forcelist]; try done.
  - lia.
  - exact (retryable_listed (method p) 3 Hin).
  - by destruct (not_in_retry_after _ Hlast).
Qed.


End DispatcherCases.

Section DispatcherBounds.

Variable lib : Library.
Variable srv : Server.
Variables tok base version meth endpoint : string.
Variable body : json.
Variable log : list Request.

(** X4. Whatever the host and the method, a call that is never answered
    with a redirect sends at most four requests: none when the request
    cannot be prepared, and otherwise the prepared request, one to four
    times or not at all, after what the server had received before. *)
Theorem api_call_at_most_four :
  (forall l, is_redirect (srv l) = false) ->
  match
    prepare_request lib (request_of (FrameioClient_init tok base version) meth endpoint body)
  with
  | Raise e =>
      _api_call lib (FrameioClient_init tok base version) meth endpoint body srv log
      = (Raise e, log)
  | Return p =>
      exists n : nat,
        (n <= 4)%nat
        /\ (_api_call lib (FrameioClient_init tok base version) meth endpoint body srv log).2
           = (log ++ replicate n p)%list
  end.
Proof.
  intros Hfinal.
  destruct (prepare_request lib _) as [p|e] eqn:Hprep; [|by apply api_call_unsent].
  rewrite (api_call_prepared lib srv _ _ _ _ _ p Hprep). cbn [snd].
  assert (Hsend : forall adapter,
            Retry.total (max_retries adapter) <= 3 ->
            exists n : nat,
              (n <= 4)%nat
              /\ (match send lib adapter p srv log with
                  | (Raise e, log') => (Raise e, log')
                  | (Return r, log') =>
                      resolve_redirects lib
                        (mount "https://"
                           (mkHTTPAdapter (retry_strategy (FrameioClient_init tok base version)))
                           Session)
                        srv DEFAULT_REDIRECT_LIMIT p r log'
                  end).2 = (log ++ replicate n p)%list).
  { intros adapter Htot.
    destruct (urlopen_bounded lib srv p (max_retries adapter) log) as (n & Hn & Hlog).
    exists n. split; [lia|].
    rewrite <- Hlog, <- send_log.
    destruct (send lib adapter p srv log) as [[r|e] log'] eqn:E; [|done].
    rewrite (send_answer lib srv _ _ _ _ _ E).
    by rewrite (resolve_redirects_none lib srv _ _ p _ log' (Hfinal _)). }
  unfold Session_send, send_one. rewrite mounted_adapters. unfold get_adapter.
  destruct (Str.startswith (Str.lower "https://") _).
  - apply Hsend. cbn. lia.
  - destruct (Str.startswith (Str.lower "http://") _).
    + apply Hsend. cbn. lia.
    + exists 0%nat. split; [lia|]. cbn. by rewrite app_nil_r.
Qed.

(** X8. A request that does not get through the library is not sent: when
    it cannot be prepared, when its URL is neither [https://] nor
    [http://], and when it cannot be encoded, the call raises the error of
    that step ([InvalidSchema] for the URL; the error of the encoding is
    not the [MaxRetryError] of the loop) and the server receives
    nothing. *)
Theorem api_call_not_sent (e : exn) :
  (prepare_request lib (request_of (FrameioClient_init tok base version) meth endpoint body)
   = Raise e ->
   _api_call lib (FrameioClient_init tok base version) meth endpoint body srv log
   = (Raise e, log))
  /\ (forall p,
        prepare_request lib
          (request_of (FrameioClient_init tok base version) meth endpoint body)
        = Return p ->
        Str.startswith "https://" (Str.lower (url p)) = false ->
        Str.startswith "http://" (Str.lower (url p)) = false ->
        _api_call lib (FrameioClient_init tok base version) meth endpoint body srv log
        = (Raise InvalidSchema, log))
  /\ (forall p,
        prepare_request lib
          (request_of (FrameioClient_init tok base version) meth endpoint body)
        = Return p ->
        Str.startswith "https://" (Str.lower (url p)) = true
        \/ Str.startswith "http://" (Str.lower (url p)) = true ->
        put_request lib p = Raise e ->
        e <> MaxRetryError ->
        _api_call lib (FrameioClient_init tok base version) meth endpoint body srv log
        = (Raise e, log)).
Proof.
  split; [apply api_call_unsent|]. split.
  - intros p Hprep Hs Hh. rewrite (api_call_prepared lib srv _ _ _ _ _ p Hprep).
    unfold Session_send, send_one. rewrite mounted_adapters. unfold get_adapter.
    change (Str.lower "https://") with "https://".
    change (Str.lower "http://") with "http://".
    by rewrite Hs, Hh.
  - intros p Hprep Hurl Hput Hne. rewrite (api_call_prepared lib srv _ _ _ _ _ p Hprep).
    unfold Session_send, send_one.
    assert (Hadapter : exists adapter,
              get_adapter
                (mount "https://"
                   (mkHTTPAdapter (retry_strategy (FrameioClient_init tok base version)))
                   Session) (url p) = Return adapter).
    { destruct Hurl as [Hs|Hh].
      - eexists. by apply get_adapter_https.
      - eexists. by apply get_adapter_http. }
    destruct Hadapter as [adapter ->].
    unfold send. rewrite (urlopen_unsent lib srv p _ log e Hput).
    by destruct e.
Qed.

End DispatcherBounds.


Lemma api_call_other_status_once_witness :
  _api_call wire sample_client "get" "/assets/a1" (JObj []) (answers not_found) []
  = (Raise (HTTPError not_found),
     [wire_request sample_client "get" "/assets/a1" (JObj [])]).
Proof.
  apply (api_call_other_status_once wire (answers not_found) "t0k3n" default_host "0.7.4"
           "get" "/assets/a1" (JObj [])
           (wire_request sample_client "get" "/assets/a1" (JObj [])) []
           eq_refl eq_refl eq_refl).
  - intros [H|[H|[H|[]]]]; discriminate H.
  - reflexivity.
Defined.

Lemma api_call_retry_after_witness :
  _api_call wire sample_client "get" "/me" (JObj []) (answers unavailable) []
  = (Raise (HTTPError unavailable),
     replicate 4 (wire_request sample_client "get" "/me" (JObj []))).
Proof.
  apply (api_call_retry_after wire (answers unavailable) "t0k3n" default_host "0.7.4"
           "get" "/me" (JObj [])
           (wire_request sample_client "get" "/me" (JObj [])) []
           eq_refl eq_refl eq_refl).
  - left; reflexivity.
  - intros l. split; [right; left; reflexivity|]. split; [reflexivity|]. intros H; exact H.
Defined.

Lemma api_call_recovers_witness :
  _api_call wire sample_client "get" "/me" (JObj []) (busy_then 2 me_response) []
  = (Return (Plain (JObj [])),
     replicate 3 (wire_request sample_client "get" "/me" (JObj []))).
Proof.
  apply (api_call_recovers wire (busy_then 2 me_response) "t0k3n" default_host "0.7.4"
           "get" "/me" (JObj [])
           (wire_request sample_client "get" "/me" (JObj [])) []
           eq_refl eq_refl 2 eq_refl).
  - left; reflexivity.
  - lia.
  - intros [|[|[|j]]] Hj; solve [lia | split; [reflexivity | intros H; exact H]].
  - intros [H|[H|[H|[]]]]; discriminate H.
  - reflexivity.
Defined.


Lemma api_call_at_most_four_witness :
  exists n : nat,
    (n <= 4)%nat
    /\ (_api_call wire sample_client "get" "/me" (JObj []) always_429 []).2
       = replicate n (wire_request sample_client "get" "/me" (JObj [])).
Proof.
  exact (api_call_at_most_four wire always_429 "t0k3n" default_host "0.7.4"
           "get" "/me" (JObj []) [] (fun _ => eq_refl)).
Defined.

Lemma api_call_not_sent_witness :
  _api_call wire (FrameioClient_init "t0k3n" "ftp://files.example" "0.7.4")
    "get" "/me" (JObj []) (answers me_response) []
  = (Raise InvalidSchema, []).
Proof.
  destruct (api_call_not_sent wire (answers me_response)
              "t0k3n" "ftp://files.example" "0.7.4" "get" "/me" (JObj []) [] InvalidSchema)
    as (_ & H & _).
  exact (H (wire_request (FrameioClient_init "t0k3n" "ftp://files.example" "0.7.4")
              "get" "/me" (JObj []))
           eq_refl eq_refl eq_refl).
Defined.

(** ** Waits and redirects *)

Section WaitsAndRedirects.

Variable lib : Library.
Variable srv : Server.
Variables tok base version meth endpoint : string.
Variable body : json.
Variable p : Request.
Variable log : list Request.

Hypothesis prepared :
  prepare_request lib (request_of (FrameioClient_init tok base version) meth endpoint body)
  = Return p.
Hypothesis encoded : put_request lib p = Return tt.
Hypothesis secure : Str.startswith "https://" (Str.lower (url p)) = true.

Lemma sleep_raises (retries : Retry.t) (response : Response) (v : string) (e : exn) :
  Retry.respect_retry_after_header retries = true ->
  headers response !! "retry-after" = Some v ->
  Retry.parse_retry_after lib v = Raise e ->
  Retry.sleep lib retries response = Raise e.
Proof.
  intros Hr Hv He. unfold Retry.sleep, Retry.sleep_for_retry, Retry.get_retry_after.
  change (Str.lower "Retry-After") with "retry-after".
  by rewrite Hr, Hv, He.
Qed.

(** X21. The wait between two attempts is read off the [Retry-After]
    header of the answer, and a header that cannot be read ends the call:
    when the first answer to a GET, POST or OPTIONS call, prepared and
    encoded for an [https://] URL, is a 429 whose [Retry-After] is neither
    a number of seconds nor a date, the call raises [InvalidHeader]; when
    it looks like a number of seconds and [int] refuses it, the call
    raises [ValueError].  Either way one request was sent. *)
Theorem api_call_retry_after_unreadable (v : string) :
  In (method p) ["GET"; "POST"; "OPTIONS"] ->
  status_code (srv (log ++ [p])%list) = 429 ->
  headers (srv (log ++ [p])%list) !! "retry-after" = Some v ->
  (Retry.matches_seconds v = false ->
   retry_date lib v = Raise InvalidHeader ->
   _api_call lib (FrameioClient_init tok base version) meth endpoint body srv log
   = (Raise InvalidHeader, (log ++ [p])%list))
  /\ (Retry.matches_seconds v = true ->
      int_of_str v = None ->
      _api_call lib (FrameioClient_init tok base version) meth endpoint body srv log
      = (Raise ValueError, (log ++ [p])%list)).
Proof.
  intros Hin Hst Hv.
  assert (Hloop : forall e,
            Retry.parse_retry_after lib v = Raise e ->
            e <> MaxRetryError ->
            _api_call lib (FrameioClient_init tok base version) meth endpoint body srv log
            = (Raise e, (log ++ [p])%list)).
  { intros e He Hne. rewrite (api_call_prepared lib srv _ _ _ _ _ p prepared).
    destruct (increment_ok (retry_strategy (FrameioClient_init tok base version)))
      as (new_retry & Hinc & _ & _ & _ & Hresp & _); [cbn; lia|].
    rewrite (Session_send_raises lib srv _
               (mkHTTPAdapter (retry_strategy (FrameioClient_init tok base version)))
               p e log (log ++ [p])%list (get_adapter_https _ _ secure)); [done| |done].
    apply (urlopen_wait_fails lib srv p _ new_retry e log encoded).
    - apply is_retry_forced; [exact (retryable_listed (method p) 3 Hin) | by rewrite Hst].
    - exact Hinc.
    - by apply (sleep_raises new_retry _ v e). }
  split.
  - intros Hm Hd. apply Hloop; [|done].
    unfold Retry.parse_retry_after. by rewrite Hm, Hd.
  - intros Hm Hi. apply Hloop; [|done].
    unfold Retry.parse_retry_after. rewrite Hm. cbn. by rewrite Hi.
Qed.

(** X22. A redirect is followed.  When the first answer to a call,
    prepared and encoded for an [https://] URL, has one of the statuses
    301, 302, 303, 307 and 308 and a [Location] that the library reads as
    a non-empty target, the request is rebuilt for that target and sent;
    when the rebuilt request is encoded for an [https://] URL too and its
    answer is neither one to retry on nor a redirect, that second answer
    goes to the interpreter, after two requests. *)
Theorem api_call_redirect_followed (location target : string) (next : Request) :
  In (status_code (srv (log ++ [p])%list)) REDIRECT_STATI ->
  headers (srv (log ++ [p])%list) !! "location" = Some location ->
  redirect_location lib location = Return target ->
  target <> "" ->
  rebuild_request lib p (srv (log ++ [p])%list) target = Return next ->
  put_request lib next = Return tt ->
  Str.startswith "https://" (Str.lower (url next)) = true ->
  ~ In (status_code (srv (log ++ [p; next])%list)) [413; 429; 503] ->
  is_redirect (srv (log ++ [p; next])%list) = false ->
  _api_call lib (FrameioClient_init tok base version) meth endpoint body srv log
  = (interpret endpoint (srv (log ++ [p; next])%list), (log ++ [p; next])%list).
Proof.
  intros Hst Hloc Hdec Hne Hnext Hput Hurl Hlast Hfinal.
  assert (Hfirst : ~ In (status_code (srv (log ++ [p])%list)) [413; 429; 503]).
  { intros H. unfold REDIRECT_STATI in Hst. cbn in Hst, H. lia. }
  assert (Hstop : forall (req : Request) (l : list Request),
            ~ In (status_code (srv (l ++ [req])%list)) [413; 429; 503] ->
            Retry.is_retry (retry_strategy (FrameioClient_init tok base version))
              (method req) (status_code (srv (l ++ [req])%list))
              (py_bool (headers_get (srv (l ++ [req])%list) "Retry-After")) = false).
  { intros req l Hnot. destruct (not_in_retry_after _ Hnot). by apply is_retry_other. }
  assert (Hlog : ((log ++ [p]) ++ [next] = log ++ [p; next])%list)
    by (by rewrite <- app_assoc).
  rewrite (api_call_prepared lib srv _ _ _ _ _ p prepared).
  unfold Session_send, send_one.
  rewrite (get_adapter_https _ _ secure).
  rewrite (send_returns lib srv
             (mkHTTPAdapter (retry_strategy (FrameioClient_init tok base version)))
             p log _ _
             (urlopen_stop lib srv p _ log encoded (Hstop p log Hfirst))).
  unfold DEFAULT_REDIRECT_LIMIT.
  rewrite (resolve_redirects_follow lib srv _ 29 p next _ target _
             (get_redirect_target_location lib _ location target Hst Hloc Hdec Hne) Hnext).
  unfold send_one. rewrite (get_adapter_https _ _ Hurl).
  rewrite <- Hlog in Hlast, Hfinal |- *.
  rewrite (send_returns lib srv
             (mkHTTPAdapter (retry_strategy (FrameioClient_init tok base version)))
             next (log ++ [p])%list _ _
             (urlopen_stop lib srv next _ _ Hput (Hstop next _ Hlast))).
  by rewrite (resolve_redirects_none lib srv _ _ next _ _ Hfinal).
Qed.

End WaitsAndRedirects.

Lemma api_call_retry_after_unreadable_witness :
  _api_call wire sample_client "get" "/me" (JObj []) (answers come_back_soon) []
  = (Raise InvalidHeader, [wire_request sample_client "get" "/me" (JObj [])]).
Proof.
  destruct (api_call_retry_after_unreadable wire (answers come_back_soon)
              "t0k3n" default_host "0.7.4" "get" "/me" (JObj [])
              (wire_request sample_client "get" "/me" (JObj [])) []
              eq_refl eq_refl eq_refl "soon"
              ltac:(left; reflexivity) eq_refl eq_refl) as [H _].
  exact (H eq_refl eq_refl).
Defined.

Lemma api_call_redirect_followed_witness :
  _api_call wire sample_client "get" "/me" (JObj []) (moved_then me_response) []
  = (Return (Plain (JObj [])),
     [wire_request sample_client "get" "/me" (JObj []);
      mkRequest "GET" "https://api.frame.io/v2/accounts/me"
        [("Authorization", "Bearer t0k3n"); ("x-frameio-client", "python/0.7.4")]
        (JObj [])]).
Proof.
  apply (api_call_redirect_followed wire (moved_then me_response)
           "t0k3n" default_host "0.7.4" "get" "/me" (JObj [])
           (wire_request sample_client "get" "/me" (JObj [])) []
           eq_refl eq_refl eq_refl
           "https://api.frame.io/v2/accounts/me" "https://api.frame.io/v2/accounts/me"
           (mkRequest "GET" "https://api.frame.io/v2/accounts/me"
              [("Authorization", "Bearer t0k3n"); ("x-frameio-client", "python/0.7.4")]
              (JObj [])));
    try reflexivity.
  - do 3 right; left; reflexivity.
  - discriminate.
  - intros [H|[H|[H|[]]]]; discriminate H.
Defined.

(** ** More on the interpreter *)


Section InterpreterCases.

Variable endpoint : string.
Variable r : Response.

Lemma ok_iff : ok r = true <-> ~ (400 <= status_code r < 600).
Proof.
  unfold ok, raise_for_status.
  destruct (400 <=? status_code r) eqn:E1, (status_code r <? 600) eqn:E2; cbn;
    split; intros H; try done; lia.
Qed.

Lemma ok_not_error : ~ (400 <= status_code r < 600) -> ok r = true.
Proof. apply ok_iff. Qed.

Lemma json_or_ValueError :
  (Response_json r ≫= λ body, mret (Plain body))
  = match decoded r with
    | Some body => Return (Plain body)
    | None => Raise ValueError
    end.
Proof. unfold Response_json. by destruct (decoded r). Qed.

(** X7. A 4xx or 5xx answer never gives a value: it raises
    [PresentationException] when the status is 422 and the endpoint
    contains "presentation", and the [HTTPError] that carries the answer in
    every other case, whatever its headers and body. *)
Theorem interpret_error_status :
  400 <= status_code r < 600 ->
  (status_code r = 422 /\ (exists a b, endpoint = a +:+ "presentation" +:+ b)
   /\ interpret endpoint r = Raise PresentationException)
  \/ (~ (status_code r = 422 /\ exists a b, endpoint = a +:+ "presentation" +:+ b)
      /\ interpret endpoint r = Raise (HTTPError r)).
Proof.
  intros Hst. unfold interpret, ok, raise_for_status.
  destruct (400 <=? status_code r) eqn:E1; [|lia].
  destruct (status_code r <? 600) eqn:E2; [|lia]. cbn.
  destruct (status_code r =? 422) eqn:E3; cbn.
  - destruct (Str.contains "presentation" endpoint) eqn:E4.
    + left. apply contains_spec in E4. split; [lia | done].
    + right. split; [|done]. intros [_ H]. apply contains_spec in H. congruence.
  - right. split; [|done]. intros [H _]. lia.
Qed.

(** X9. A successful answer whose body is not JSON (the empty body of a
    204 for one) makes the call raise: [ValueError] from the decoder, or
    the error of [int] on the [total-pages] header when that comes first. *)
Theorem interpret_undecodable_body :
  ~ (400 <= status_code r < 600) ->
  decoded r = None ->
  exists e, interpret endpoint r = Raise e /\ (e = ValueError \/ e = TypeError).
Proof.
  intros Hst Hbody. unfold interpret.
  rewrite (ok_not_error Hst), !json_or_ValueError, Hbody.
  destruct (py_bool _); [|eauto].
  unfold Response_json. rewrite Hbody.
  destruct (headers_get r "total-pages") as [|z|s]; cbn; eauto.
  - destruct (1 <? z); cbn; eauto.
  - destruct (int_of_str s) as [n|]; cbn; eauto.
    destruct (1 <? n); cbn; eauto.
Qed.

(** X10. The pagination headers count only when [page-number] is not empty
    and [total-pages] is more than 1: with an empty [page-number], or with
    a [total-pages] of 1, 0 or less, the body is returned unwrapped. *)
Theorem interpret_one_page_or_none :
  ~ (400 <= status_code r < 600) ->
  headers r !! "page-number" = Some ""
  \/ (exists tp n, headers r !! "total-pages" = Some tp /\ int_of_str tp = Some n /\ n <= 1) ->
  interpret endpoint r
  = match decoded r with
    | Some body => Return (Plain body)
    | None => Raise ValueError
    end.
Proof.
  intros Hst Hcase. unfold interpret.
  rewrite (ok_not_error Hst), !json_or_ValueError.
  destruct Hcase as [Hempty | (tp & n & Htp & Itp & Hn)].
  - by rewrite (headers_get_some r "page-number" "" Hempty).
  - destruct (py_bool _); [|done].
    rewrite (headers_get_some r "total-pages" tp Htp), (py_int_str tp n Itp).
    cbn. destruct (1 <? n) eqn:E; [lia | done].
Qed.

End InterpreterCases.

Section PaginationHeaders.

Variable endpoint : string.
Variable r : Response.
Variables pn tp : string.
Variable n : Z.
Variable body : json.

Hypothesis success : ~ (400 <= status_code r < 600).
Hypothesis has_page_number : headers r !! "page-number" = Some pn.
Hypothesis page_number_given : pn <> "".
Hypothesis has_total_pages : headers r !! "total-pages" = Some tp.

Lemma headers_getitem_none (k : string) :
  headers r !! Str.lower k = None -> headers_getitem r k = Raise (KeyError k).
Proof. intros H. unfold headers_getitem. by rewrite H. Qed.

Lemma interpret_many_pages :
  int_of_str tp = Some n ->
  1 < n ->
  decoded r = Some body ->
  interpret endpoint r
  = (page_size ← headers_getitem r "per-page";
     total ← headers_getitem r "total";
     p ← PaginatedResponse_init body (PyStr pn) page_size total (PyStr tp);
     mret (Paginated p)).
Proof.
  intros Itp Hn Hbody. unfold interpret.
  rewrite (ok_not_error r success).
  rewrite (headers_get_some r "page-number" pn has_page_number).
  rewrite (py_bool_str pn page_number_given).
  rewrite (headers_get_some r "total-pages" tp has_total_pages).
  rewrite (py_int_str tp n Itp). cbn.
  destruct (1 <? n) eqn:E; [|lia].
  unfold Response_json. rewrite Hbody. cbn.
  rewrite (headers_getitem_some r "page-number" pn has_page_number). cbn.
  destruct (headers_getitem r "per-page") as [pp|e]; [|done]. cbn.
  rewrite (headers_getitem_some r "total-pages" tp has_total_pages). cbn.
  by destruct (headers_getitem r "total").
Qed.

(** X11. With more than one page announced, the [per-page] and [total]
    headers must be there: the call raises [KeyError] for the first one
    that is missing, even when the others are in order. *)
Theorem interpret_missing_page_header :
  int_of_str tp = Some n ->
  1 < n ->
  decoded r = Some body ->
  (headers r !! "per-page" = None -> interpret endpoint r = Raise (KeyError "per-page"))
  /\ (is_Some (headers r !! "per-page") ->
      headers r !! "total" = None ->
      interpret endpoint r = Raise (KeyError "total")).
Proof.
  intros Itp Hn Hbody. rewrite (interpret_many_pages Itp Hn Hbody). split.
  - intros Hpp. by rewrite (headers_getitem_none "per-page" Hpp).
  - intros [pp Hpp] Htot.
    rewrite (headers_getitem_some r "per-page" pp Hpp).
    by rewrite (headers_getitem_none "total" Htot).
Qed.

(** X12. A pagination header that is not an integer stops the call with
    [ValueError]: [total-pages] at once, before the body is looked at, and
    [page-number], [per-page] or [total] when more than one page is
    announced. *)
Theorem interpret_malformed_header :
  (int_of_str tp = None -> interpret endpoint r = Raise ValueError)
  /\ (forall pp tot : string,
        int_of_str tp = Some n ->
        1 < n ->
        decoded r = Some body ->
        headers r !! "per-page" = Some pp ->
        headers r !! "total" = Some tot ->
        int_of_str pn = None \/ int_of_str pp = None \/ int_of_str tot = None ->
        interpret endpoint r = Raise ValueError).
Proof.
  split.
  - intros Itp. unfold interpret.
    rewrite (ok_not_error r success).
    rewrite (headers_get_some r "page-number" pn has_page_number).
    rewrite (py_bool_str pn page_number_given).
    rewrite (headers_get_some r "total-pages" tp has_total_pages).
    cbn. by rewrite Itp.
  - intros pp tot Itp Hn Hbody Hpp Htot Hbad.
    rewrite (interpret_many_pages Itp Hn Hbody).
    rewrite (headers_getitem_some r "per-page" pp Hpp).
    rewrite (headers_getitem_some r "total" tot Htot).
    cbn. unfold PaginatedResponse_init. cbn.
    destruct (int_of_str pn) as [a|]; [|done]. cbn.
    destruct (int_of_str pp) as [b|]; [|done]. cbn.
    destruct (int_of_str tot) as [c|]; [|done].
    destruct Hbad as [H|[H|H]]; discriminate H.
Qed.

End PaginationHeaders.

Lemma interpret_error_status_witness :
  interpret "/assets/a1" not_found = Raise (HTTPError not_found).
Proof.
  destruct (interpret_error_status "/assets/a1" not_found ltac:(cbn; lia))
    as [(H & _ & _) | (_ & H)].
  - discriminate H.
  - exact H.
Defined.

Lemma interpret_undecodable_body_witness :
  exists e, interpret "/assets/a1" no_content = Raise e /\ (e = ValueError \/ e = TypeError).
Proof.
  apply (interpret_undecodable_body "/assets/a1" no_content).
  - cbn; lia.
  - reflexivity.
Defined.

Lemma interpret_one_page_or_none_witness :
  interpret "/teams/t1/projects"
    (mkResponse 200 (page_headers "" "3" "4" "10") "[1]" (Some (JArr [JInt 1])))
  = Return (Plain (JArr [JInt 1])).
Proof.
  apply (interpret_one_page_or_none "/teams/t1/projects"
           (mkResponse 200 (page_headers "" "3" "4" "10") "[1]" (Some (JArr [JInt 1])))).
  - cbn; lia.
  - left; reflexivity.
Defined.

Lemma interpret_missing_page_header_witness :
  interpret "/teams/t1/projects"
    (mkResponse 200 (<["page-number" := "1"]> (<["total-pages" := "2"]> ∅)) "[]"
       (Some (JArr [])))
  = Raise (KeyError "per-page").
Proof.
  apply (interpret_missing_page_header "/teams/t1/projects"
           (mkResponse 200 (<["page-number" := "1"]> (<["total-pages" := "2"]> ∅)) "[]"
              (Some (JArr [])))
           "1" "2" 2 (JArr []));
    solve [reflexivity | cbn; lia | discriminate].
Defined.

Lemma interpret_malformed_header_witness :
  interpret "/teams/t1/projects"
    (mkResponse 200 (page_headers "1" "3" "many" "10") "[]" (Some (JArr [])))
  = Raise ValueError.
Proof.
  apply (interpret_malformed_header "/teams/t1/projects"
           (mkResponse 200 (page_headers "1" "3" "many" "10") "[]" (Some (JArr [])))
           "1" "many" 0 (JArr []));
    solve [reflexivity | cbn; lia | discriminate].
Defined.

(** ** More on the downloader *)


(** ** More on the downloader *)

Section DownloadCases.

Variable self : FrameioDownloader.
Variable w : World.

(** X13. A descriptor without [name], or with [name] and without
    [original], makes the download raise [KeyError] for that key, and
    nothing is written. *)
Theorem download_missing_key :
  (asset self !! "name" = None -> download self w = (Raise (KeyError "name"), w))
  /\ (is_Some (asset self !! "name") ->
      asset self !! "original" = None ->
      download self w = (Raise (KeyError "original"), w)).
Proof.
  unfold download, asset_getitem. split.
  - by intros ->.
  - by intros [name ->] ->.
Qed.

(** X14. When the GET itself fails, its error is the error of the
    download, and the disk is as before: an older file at the destination
    is kept. *)
Theorem download_fetch_failure (name original : string) (e : exn) :
  asset self !! "name" = Some name ->
  asset self !! "original" = Some original ->
  fetch w original = Raise e ->
  download self w = (Raise e, w).
Proof.
  intros Hname Horig Hfetch. unfold download, asset_getitem, requests_get.
  by rewrite Hname, Horig, Hfetch.
Qed.

(** X15. A [name] that starts with a slash is taken as the whole path:
    the download folder is dropped, and when [name] can be opened and
    takes the whole write, the file that [name] names holds the body and
    no other file changes. *)
Theorem download_absolute_name (name original : string) (r : Response) :
  asset self !! "name" = Some name ->
  asset self !! "original" = Some original ->
  fetch w original = Return r ->
  Str.startswith "/" name = true ->
  can_open w name = true ->
  write w name (content r) = Written ->
  download self w
  = (Return tt, with_files w (<[resolve w name := content r]> (files w))).
Proof.
  intros Hname Horig Hfetch Habs Hopen Hwrite.
  unfold download, asset_getitem, requests_get, open_wb_write, os_path_join.
  by rewrite Hname, Horig, Hfetch, Habs, Hopen, Hwrite.
Qed.

End DownloadCases.

Section DownloadFolder.

Lemma append_assoc (s t u : string) : (s +:+ t) +:+ u = s +:+ t +:+ u.
Proof.
  induction s as [|a s IH]; [done|].
  by rewrite !app_cons, IH.
Qed.

Lemma endswith_char_app (c : ascii) (s : string) :
  Str.endswith_char c (s +:+ String c "") = true.
Proof.
  induction s as [|a s IH]; [cbn; apply Ascii.eqb_refl|].
  rewrite app_cons. cbn -[String.append].
  destruct (s +:+ String c "") eqn:E; [by destruct s | done].
Qed.

Lemma os_path_join_trailing_slash (folder name : string) :
  folder <> "" ->
  Str.endswith_char "/" folder = false ->
  os_path_join (folder +:+ "/") name = os_path_join folder name.
Proof.
  intros Hne Hslash. unfold os_path_join.
  destruct (Str.startswith "/" name); [done|].
  rewrite endswith_char_app, orb_true_r, Hslash.
  destruct folder as [|a folder]; [done|]. cbn [String.eqb orb].
  replace ((String a folder) =? "")%string with false by done.
  cbn [orb]. by rewrite append_assoc.
Qed.

(** X16. The folder may be given with or without a slash at its end: the
    download is the same, on every descriptor and in every world. *)
Theorem download_folder_trailing_slash
    (descriptor : gmap string string) (folder : string) (w : World) :
  folder <> "" ->
  Str.endswith_char "/" folder = false ->
  FrameioClient_download descriptor (folder +:+ "/") w
  = FrameioClient_download descriptor folder w.
Proof.
  intros Hne Hslash. unfold FrameioClient_download, download; cbn [download_folder asset].
  destruct (asset_getitem descriptor "name") as [name|e]; [|done].
  by rewrite (os_path_join_trailing_slash folder name Hne Hslash).
Qed.

End DownloadFolder.

Lemma download_missing_key_witness :
  download (mkFrameioDownloader (<["name" := "clip.mp4"]> ∅) "D") (storage 200 "bytes")
  = (Raise (KeyError "original"), storage 200 "bytes").
Proof.
  apply (download_missing_key
           (mkFrameioDownloader (<["name" := "clip.mp4"]> ∅) "D") (storage 200 "bytes")).
  - by exists "clip.mp4".
  - reflexivity.
Defined.

Lemma download_fetch_failure_witness :
  download clip_downloader
    (mkWorld (fun _ => Raise ConnectionError) ∅ encode (fun _ => true) (fun _ _ => Written))
  = (Raise ConnectionError,
     mkWorld (fun _ => Raise ConnectionError) ∅ encode (fun _ => true) (fun _ _ => Written)).
Proof.
  apply (download_fetch_failure clip_downloader
           (mkWorld (fun _ => Raise ConnectionError) ∅ encode (fun _ => true)
              (fun _ _ => Written))
           "clip.mp4" "https://storage.example/clip" ConnectionError);
    reflexivity.
Defined.

Lemma download_absolute_name_witness :
  download
    (mkFrameioDownloader
       (<["name" := "/etc/motd"]> (<["original" := "https://storage.example/clip"]> ∅)) "D")
    (storage 200 "bytes")
  = (Return tt, with_files (storage 200 "bytes") (<[encode "/etc/motd" := "bytes"]> ∅)).
Proof.
  apply (download_absolute_name
           (mkFrameioDownloader
              (<["name" := "/etc/motd"]> (<["original" := "https://storage.example/clip"]> ∅))
              "D")
           (storage 200 "bytes")
           "/etc/motd" "https://storage.example/clip" (mkResponse 200 ∅ "bytes" None));
    reflexivity.
Defined.

Lemma download_folder_trailing_slash_witness :
  FrameioClient_download clip_asset "D/" (storage 200 "bytes")
  = FrameioClient_download clip_asset "D" (storage 200 "bytes").
Proof.
  apply (download_folder_trailing_slash clip_asset "D" (storage 200 "bytes")).
  - discriminate.
  - reflexivity.
Defined.

(** ** The resource methods *)

Section ResourceMethods.

Variable lib : Library.
Variable srv : Server.
Variables tok base version : string.
Variable log : list Request.

Lemma interpret_presentation (endpoint : string) (r : Response) :
  status_code r = 422 ->
  Str.contains "presentation" endpoint = true ->
  interpret endpoint r = Raise PresentationException.
Proof.
  intros Hst Hsub. destruct (not_ok_422 r Hst) as [Hok _].
  unfold interpret. by rewrite Hok, Hst, Hsub.
Qed.

Lemma presentations_endpoint (asset_id : string) :
  Str.contains "presentation" ("/assets/" +:+ asset_id +:+ "/presentations") = true.
Proof.
  apply contains_spec. exists ("/assets/" +:+ asset_id +:+ "/"), "s".
  by rewrite !append_assoc.
Qed.

(** X17. [create_presentation_link], its request prepared and encoded for
    an [https://] URL, answered 422 raises [PresentationException],
    whatever the asset and the parameters, after one request: a 422 is not
    retried. *)
Theorem create_presentation_link_422 (asset_id : string) (kwargs : list (string * json))
    (p : Request) :
  prepare_request lib
    (request_of (FrameioClient_init tok base version) "post"
       ("/assets/" +:+ asset_id +:+ "/presentations") (JObj kwargs))
  = Return p ->
  put_request lib p = Return tt ->
  Str.startswith "https://" (Str.lower (url p)) = true ->
  status_code (srv (log ++ [p])%list) = 422 ->
  create_presentation_link lib (FrameioClient_init tok base version) asset_id kwargs srv log
  = (Raise PresentationException, (log ++ [p])%list).
Proof.
  intros Hprep Hput Hurl Hst. unfold create_presentation_link.
  rewrite (api_call_once lib srv _ _ _ _ _ p Hprep Hput Hurl).
  - by rewrite (interpret_presentation _ _ Hst (presentations_endpoint asset_id)).
  - apply is_retry_other; by rewrite Hst.
  - apply is_redirect_status. rewrite Hst. cbn.
    intros H; repeat destruct H as [H|H]; try discriminate H; done.
Qed.


(** X19. [get_comment] and [get_comments] pass their keyword arguments on
    as keyword arguments of [_api_call]: any keyword but [payload] is a
    [TypeError], and no request is sent. *)
Theorem get_comment_keywords (self : FrameioClient) (id : string)
    (kwargs : list (string * json)) :
  (exists k v, In (k, v) kwargs /\ k <> "payload") ->
  get_comment lib self id kwargs srv log = (Raise TypeError, log)
  /\ get_comments lib self id kwargs srv log = (Raise TypeError, log).
Proof.
  intros (k & v & Hin & Hk).
  unfold get_comment, get_comments, _api_call_unpacked.
  destruct kwargs as [|[k1 v1] [|kv2 rest]]; [done | | done].
  destruct Hin as [[= -> ->]|[]].
  apply String.eqb_neq in Hk. by rewrite Hk.
Qed.

Lemma dict_append_batch (x : json) (acc : list json) (rest : list (string * json)) :
  dict_append "batch" x (("batch", JArr acc) :: rest)
  = ("batch", JArr (acc ++ [x])%list) :: dict_append "batch" x rest.
Proof. reflexivity. Qed.

Lemma batch_loop (rest : list (string * json)) (asset_list acc : list json) :
  (forall x, dict_append "batch" x rest = rest) ->
  fold_left (fun payload asset => dict_append "batch" (JObj [("id", asset)]) payload)
    asset_list (("batch", JArr acc) :: rest)
  = ("batch", JArr (acc ++ List.map (fun asset => JObj [("id", asset)]) asset_list)%list)
      :: rest.
Proof.
  intros Hrest. revert acc.
  induction asset_list as [|a l IH]; intros acc; cbn [fold_left List.map].
  - by rewrite app_nil_r.
  - rewrite dict_append_batch, Hrest, IH. by rewrite <- app_assoc.
Qed.

(** X20. [bulk_copy_assets] posts a payload whose [batch] has one
    [{"id": asset}] per asset of the list, in the order of the list (none
    for an empty list), followed by [copy_comments: "all"] when comments
    are to be copied and by nothing otherwise. *)
Theorem bulk_copy_assets_payload (self : FrameioClient) (destination_folder_id : string)
    (asset_list : list json) (copy_comments : bool) :
  bulk_copy_assets lib self destination_folder_id asset_list copy_comments srv log
  = _api_call lib self "post" ("/batch/assets/" +:+ destination_folder_id +:+ "/copy")
      (JObj (("batch", JArr (List.map (fun asset => JObj [("id", asset)]) asset_list))
               :: (if copy_comments then [("copy_comments", JStr "all")] else [])))
      srv log.
Proof.
  unfold bulk_copy_assets, bulk_copy_payload. do 2 f_equal.
  destruct copy_comments.
  - change (dict_setitem "copy_comments" (JStr "all") [("batch", JArr [])])
      with [("batch", JArr []); ("copy_comments", JStr "all")].
    by rewrite batch_loop.
  - by rewrite batch_loop.
Qed.

End ResourceMethods.

Lemma create_presentation_link_422_witness :
  create_presentation_link wire sample_client "a1" [("title", JStr "Cut 3")]
    (answers unprocessable) []
  = (Raise PresentationException,
     [wire_request sample_client "post" "/assets/a1/presentations"
        (JObj [("title", JStr "Cut 3")])]).
Proof.
  apply (create_presentation_link_422 wire (answers unprocessable)
           "t0k3n" default_host "0.7.4" [] "a1" [("title", JStr "Cut 3")]
           (wire_request sample_client "post" "/assets/a1/presentations"
              (JObj [("title", JStr "Cut 3")])));
    reflexivity.
Defined.


Lemma get_comment_keywords_witness :
  get_comment wire sample_client "c1" [("include", JStr "replies")] (answers me_response) []
  = (Raise TypeError, []).
Proof.
  apply (get_comment_keywords wire (answers me_response) [] sample_client "c1"
           [("include", JStr "replies")]).
  exists "include", (JStr "replies"). split; [by left | discriminate].
Defined.
